(** * Contribution data library of the portfolio site

    A shallow embedding of [app/lib/github.ts]: the remote activity fetcher
    [fetchGitHubContributions], the aggregator [aggregateContributions] and
    the window selector [getRecentContributions], together with the parts of
    the JavaScript run time they rely on (array [flatMap] and [slice],
    truthiness and [||], own-property order of plain objects, settled
    promises, [try]/[catch]).

    Conventions of the embedding.
    - A TypeScript [number] that holds a count is a [Z].
    - An optional parameter or an environment variable is an [option]; the
      [undefined] value is [None].
    - An [async] function is a computation in the monad [M] below: it emits
      the observable events (network requests, console lines) in order and
      completes normally or by throwing.
    - Where several async calls are in flight at once, the order in which
      their responses arrive is a parameter, the schedule. *)

From stdpp Require Import gmap strings list fin_maps.
From Stdlib Require Import ZArith Lia.

Local Open Scope string_scope.
Local Open Scope list_scope.

(** ** Data model (github.ts, lines 18-50) *)

Inductive ContributionLevel :=
| NONE
| FIRST_QUARTILE
| SECOND_QUARTILE
| THIRD_QUARTILE
| FOURTH_QUARTILE.

Record ContributionDay := {
  date : string;
  contributionCount : Z;
  contributionLevel : ContributionLevel
}.

Record ContributionWeek := {
  contributionDays : list ContributionDay
}.

Record ContributionCalendar := {
  totalContributions : Z;
  weeks : list ContributionWeek
}.

(** ** JavaScript arrays *)

Module JsArray.

(** [Array.prototype.flatMap]: map, then flatten one level. *)
Definition flatMap {A B : Type} (f : A -> list B) (l : list A) : list B :=
  concat (map f l).

(** [Array.prototype.slice(start)] with an integral [start] and no [end].
    A negative [start] counts from the end and is clamped at 0; a
    non-negative one is clamped at the length. *)
Definition slice {A : Type} (start : Z) (l : list A) : list A :=
  let len := Z.of_nat (length l) in
  let k := if (start <? 0)%Z then Z.max (len + start) 0 else Z.min start len in
  drop (Z.to_nat k) l.

End JsArray.

(** ** Window selector (github.ts, lines 180-186) *)

(** The default value of the parameter [days]. *)
Definition days_default : Z := 365.

(** [days] is [None] when the caller leaves the argument out. *)
Definition getRecentContributions
    (calendar : ContributionCalendar) (days : option Z) : list ContributionDay :=
  let days := default days_default days in
  let allDays := JsArray.flatMap contributionDays (weeks calendar) in
  JsArray.slice (- days) allDays.

(** The number of days a calendar holds. *)
Definition totalDays (calendar : ContributionCalendar) : nat :=
  length (JsArray.flatMap contributionDays (weeks calendar)).

(** ** Plain objects used as string-keyed maps *)

Module JsObject.

(** The own properties of an object, in the order of their creation. *)
Definition t (V : Type) : Type := list (string * V).

Definition empty {V : Type} : t V := [].

(** Writing an own data property: an existing property keeps its place
    and takes the new value, a new one is created last. *)
Fixpoint define {V : Type} (k : string) (v : V) (o : t V) : t V :=
  match o with
  | [] => [(k, v)]
  | (k', v') :: o' =>
      if String.eqb k k' then (k, v) :: o' else (k', v') :: define k v o'
  end.

(** Reading an own property. *)
Fixpoint getOwn {V : Type} (k : string) (o : t V) : option V :=
  match o with
  | [] => None
  | (k', v') :: o' => if String.eqb k k' then Some v' else getOwn k o'
  end.

(** The properties of [Object.prototype], which an object written as [{}]
    inherits.  All are writable data properties except [__proto__], which
    is an accessor. *)
Definition prototype_keys : list string :=
  [ "constructor"; "__defineGetter__"; "__defineSetter__"; "hasOwnProperty";
    "__lookupGetter__"; "__lookupSetter__"; "isPrototypeOf";
    "propertyIsEnumerable"; "toString"; "valueOf"; "__proto__";
    "toLocaleString" ].

(** [o[k] = v] on an object written as [{}], for a value [v] that is not an
    object (the code stores numbers): the key [__proto__] reaches the setter
    of [Object.prototype], which ignores such a value and creates no
    property; every other key writes an own property. *)
Definition set {V : Type} (k : string) (v : V) (o : t V) : t V :=
  if String.eqb k "__proto__" then o else define k v o.

(** What reading [o[k]] gives: the value of an own property, else what
    [Object.prototype] holds under that key (a function, or the prototype
    itself for [__proto__]), else [undefined]. *)
Inductive Lookup (V : Type) :=
| Own (v : V)
| Inherited (k : string)
| Undefined.
Arguments Own {V} v.
Arguments Inherited {V} k.
Arguments Undefined {V}.

(** [o[k]] *)
Definition get {V : Type} (k : string) (o : t V) : Lookup V :=
  match getOwn k o with
  | Some v => Own v
  | None => if bool_decide (k ∈ prototype_keys) then Inherited k else Undefined
  end.

Definition digit (c : Ascii.ascii) : option N :=
  let n := Ascii.N_of_ascii c in
  if ((48 <=? n) && (n <=? 57))%N then Some (n - 48)%N else None.

Fixpoint decimal (s : string) (acc : N) : option N :=
  match s with
  | EmptyString => Some acc
  | String c s' =>
      match digit c with
      | Some d => decimal s' (10 * acc + d)%N
      | None => None
      end
  end.

(** A property key is an array index when it is the canonical decimal
    form of an integer between 0 and 2^32 - 2. *)
Definition arrayIndex (k : string) : option N :=
  match k with
  | EmptyString => None
  | String c rest =>
      if (Ascii.N_of_ascii c =? 48)%N
      then (if String.eqb rest "" then Some 0%N else None)
      else match decimal k 0 with
           | Some n => if (n <=? 4294967294)%N then Some n else None
           | None => None
           end
  end.

Fixpoint insertByIndex {V : Type} (i : N) (p : string * V)
    (l : list (N * (string * V))) : list (N * (string * V)) :=
  match l with
  | [] => [(i, p)]
  | (j, q) :: l' =>
      if (i <=? j)%N then (i, p) :: (j, q) :: l'
      else (j, q) :: insertByIndex i p l'
  end.

Fixpoint indexProperties {V : Type} (o : t V) : list (N * (string * V)) :=
  match o with
  | [] => []
  | (k, v) :: o' =>
      match arrayIndex k with
      | Some i => insertByIndex i (k, v) (indexProperties o')
      | None => indexProperties o'
      end
  end.

Fixpoint stringProperties {V : Type} (o : t V) : list (string * V) :=
  match o with
  | [] => []
  | (k, v) :: o' =>
      match arrayIndex k with
      | Some _ => stringProperties o'
      | None => (k, v) :: stringProperties o'
      end
  end.

(** [Object.entries(o)]: array-index keys first, in ascending numeric
    order, then the other keys in creation order. *)
Definition entries {V : Type} (o : t V) : list (string * V) :=
  map snd (indexProperties o) ++ stringProperties o.

(** [Object.keys(o)] and [Object.values(o)]. *)
Definition keys {V : Type} (o : t V) : list string := map fst (entries o).
Definition values {V : Type} (o : t V) : list V := map snd (entries o).

End JsObject.

(** Whether a key [a] created before a key [b] is also enumerated before
    it: always when [b] is not an array index, and otherwise only when [a]
    is an array index that is not above [b]. *)
Definition enumerated_before (a b : string) : bool :=
  match JsObject.arrayIndex b with
  | None => true
  | Some j =>
      match JsObject.arrayIndex a with
      | Some i => (i <=? j)%N
      | None => false
      end
  end.

(** The sum of a list of counts. *)
Definition sumZ (l : list Z) : Z := foldr Z.add 0%Z l.

(** ** Effects: events, completions and the monad of async functions *)

(** What a [throw] carries. *)
Inductive JsError :=
| ApiError (status : Z) (statusText : string)
    (* new Error(`GitHub API error: ${status} ${statusText}`) *)
| TypeError (property : string)
    (* reading [property] of undefined *)
| Fault (what : string).
    (* anything else: fetch() or response.json() rejected *)

Inductive Completion (A : Type) :=
| Normal (a : A)
| Throw (e : JsError).
Arguments Normal {A} a.
Arguments Throw {A} e.

(** The body of the request: [JSON.stringify({ query, variables })]. *)
Record RequestBody := {
  query : string;
  variables_username : string
}.

Record Request := {
  url : string;
  method : string;
  authorization : string;
  contentType : string;
  body : RequestBody;
  revalidate : Z
}.

(** The parsed payload, typed as [GitHubContributionResponse]; the fields
    the code reads through [?.] or tests for truthiness are optional. *)
Record ContributionsCollection := {
  contributionCalendar : ContributionCalendar
}.

Record ResponseUser := {
  contributionsCollection : ContributionsCollection
}.

Record ResponseData := {
  user : option ResponseUser
}.

Record GitHubContributionResponse := {
  data : option ResponseData
}.

Record Response := {
  ok : bool;
  status : Z;
  statusText : string;
  json : Completion GitHubContributionResponse
}.

Inductive ConsoleLine :=
| NoTokenConfigured
    (* 'No GitHub token configured. GitHub contribution data unavailable.' *)
| UserNotFound (username : string)
    (* `GitHub user "${username}" not found` *)
| FailedToFetch (username : string) (error : JsError).
    (* `Failed to fetch contributions for ${username}:`, error *)

Inductive Event :=
| NetworkRequest (r : Request)
| ConsoleWarn (line : ConsoleLine)
| ConsoleError (line : ConsoleLine).

(** An async computation: the events it emits, in order, and how it
    completes. *)
Definition M (A : Type) : Type := list Event * Completion A.

Definition ret {A : Type} (a : A) : M A := ([], Normal a).

Definition throw {A : Type} (e : JsError) : M A := ([], Throw e).

Definition bind {A B : Type} (m : M A) (k : A -> M B) : M B :=
  match m with
  | (evs, Normal a) => let '(evs', r) := k a in (evs ++ evs', r)
  | (evs, Throw e) => (evs, Throw e)
  end.

(** [try { m } catch (error) { handler }] *)
Definition try_catch {A : Type} (m : M A) (handler : JsError -> M A) : M A :=
  match m with
  | (evs, Normal a) => (evs, Normal a)
  | (evs, Throw e) => let '(evs', r) := handler e in (evs ++ evs', r)
  end.

Definition emit (ev : Event) : M unit := ([ev], Normal tt).

Definition console_warn (line : ConsoleLine) : M unit := emit (ConsoleWarn line).
Definition console_error (line : ConsoleLine) : M unit := emit (ConsoleError line).

Definition events {A : Type} (m : M A) : list Event := fst m.
Definition outcome {A : Type} (m : M A) : Completion A := snd m.

(** The network requests among the events of a computation. *)
Definition requests {A : Type} (m : M A) : list Request :=
  omap (fun ev => match ev with NetworkRequest r => Some r | _ => None end)
       (events m).

Declare Scope js_scope.
Delimit Scope js_scope with js.
Notation "'let*' x ':=' m 'in' k" := (bind m (fun x => k))
  (at level 10, x name, m at level 100, k at level 200) : js_scope.

(** ** Truthiness of optional strings *)

(** [undefined] and the empty string are falsy, every other string is truthy. *)
Definition truthy (s : option string) : bool :=
  match s with
  | Some s => negb (String.eqb s "")
  | None => false
  end.

(** [a || b] *)
Definition js_or (a b : option string) : option string :=
  if truthy a then a else b.

(** [process.env], as far as the module reads it. *)
Record ProcessEnv := {
  GITHUB_TOKEN_PERSONAL : option string;
  GITHUB_TOKEN : option string
}.

(** ** Remote activity fetcher (github.ts, lines 66-129) *)

Definition graphql_endpoint : string := "https://api.github.com/graphql".

(** The GraphQL document of lines 79-96, each run of white space written
    as one space. *)
Definition graphql_query : string :=
  "query($username: String!) { user(login: $username) { contributionsCollection { contributionCalendar { totalContributions weeks { contributionDays { date contributionCount contributionLevel } } } } } }".

(** [token || process.env.GITHUB_TOKEN_PERSONAL || process.env.GITHUB_TOKEN] *)
Definition githubToken (token : option string) (env : ProcessEnv) : option string :=
  js_or (js_or token (GITHUB_TOKEN_PERSONAL env)) (GITHUB_TOKEN env).

(** The request of lines 99-111 for a resolved credential. *)
Definition graphql_request (username credential : string) : Request :=
  {| url := graphql_endpoint;
     method := "POST";
     authorization := "Bearer " +:+ credential;
     contentType := "application/json";
     body := {| query := graphql_query; variables_username := username |};
     revalidate := 3600 |}.

Section Fetcher.

(** The process environment and the transport behind the global [fetch]:
    for a request, either a rejection or a response. *)
Variable env : ProcessEnv.
Variable transport : Request -> Completion Response.

(** [await fetch(url, init)] *)
Definition fetch (r : Request) : M Response :=
  ([NetworkRequest r], transport r).

(** [await response.json()] *)
Definition response_json (response : Response) : M GitHubContributionResponse :=
  ([], json response).

(** [result.data?.user] *)
Definition data_user (result : GitHubContributionResponse) : option ResponseUser :=
  match data result with
  | Some d => user d
  | None => None
  end.

Definition fetchGitHubContributions
    (username : string) (token : option string) : M (option ContributionCalendar) :=
  (let githubToken := githubToken token env in
   if negb (truthy githubToken) then
     let* _ := console_warn NoTokenConfigured in
     ret None
   else
     try_catch
       (let* response :=
          fetch (graphql_request username (default "" githubToken)) in
        if negb (ok response) then
          throw (ApiError (status response) (statusText response))
        else
          let* result := response_json response in
          match data_user result with
          | None =>
              let* _ := console_warn (UserNotFound username) in
              ret None
          | Some u =>
              ret (Some (contributionCalendar (contributionsCollection u)))
          end)
       (fun error =>
          let* _ := console_error (FailedToFetch username error) in
          ret None))%js.

End Fetcher.

(** The credential resolution as the specification words it: the first of
    the candidates, in the order given, that is present and not empty. *)
Fixpoint first_resolved (candidates : list (option string)) : option string :=
  match candidates with
  | [] => None
  | Some c :: rest => if String.eqb c "" then first_resolved rest else Some c
  | None :: rest => first_resolved rest
  end.

(** ** Aggregator (github.ts, lines 149-171) *)

Record Account := {
  username : string;
  token : option string
}.

(** The elements of the array [Promise.allSettled] resolves to. *)
Inductive PromiseSettledResult (A : Type) :=
| fulfilled (value : A)
| rejected (reason : JsError).
Arguments fulfilled {A} value.
Arguments rejected {A} reason.

Definition settle {A : Type} (c : Completion A) : PromiseSettledResult A :=
  match c with
  | Normal a => fulfilled a
  | Throw e => rejected e
  end.

(** An async function of this module suspends only at [await fetch(...)]
    and [await response.json()].  What it does before its first suspension
    runs synchronously inside the call: its events up to and including its
    first network request, or all of them when it issues no request. *)
Fixpoint beforeFirstAwait (evs : list Event) : list Event :=
  match evs with
  | [] => []
  | NetworkRequest r :: _ => [NetworkRequest r]
  | ev :: rest => ev :: beforeFirstAwait rest
  end.

(** What it does once resumed. *)
Fixpoint afterFirstAwait (evs : list Event) : list Event :=
  match evs with
  | [] => []
  | NetworkRequest _ :: rest => rest
  | _ :: rest => afterFirstAwait rest
  end.

(** The events of suspended computations as they interleave: each entry of
    the schedule names the computation that emits its next event (an entry
    that names none, or one that is finished, is skipped); what is left
    when the schedule ends is emitted computation by computation.  The
    schedule stands for the order in which the responses arrive. *)
Fixpoint interleave (schedule : list nat) (pending : list (list Event))
    : list Event :=
  match schedule with
  | [] => concat pending
  | i :: schedule' =>
      match pending !! i with
      | Some (ev :: evs) => ev :: interleave schedule' (<[i := evs]> pending)
      | _ => interleave schedule' pending
      end
  end.

(** [await Promise.allSettled(promises)] for promises made by calling async
    functions one after the other (as [accounts.map] does): each call runs
    up to its first suspension before the next call starts, the resumed
    parts interleave by the schedule, every promise is awaited and none of
    their rejections escapes; the results are in the order of the array. *)
Definition allSettled {A : Type} (schedule : list nat) (promises : list (M A))
    : M (list (PromiseSettledResult A)) :=
  (concat (map (fun p => beforeFirstAwait (events p)) promises)
   ++ interleave schedule (map (fun p => afterFirstAwait (events p)) promises),
   Normal (map (fun p => settle (outcome p)) promises)).

Module Aggregate.

(** The value [aggregateContributions] resolves to. *)
Record result := {
  totalContributions : Z;
  byAccount : JsObject.t Z
}.

End Aggregate.

(** The two locals the [forEach] callback updates. *)
Definition Totals : Type := Z * JsObject.t Z.

(** The callback of [results.forEach] (lines 159-168). *)
Definition forEach_callback (accounts : list Account) (st : Totals)
    (result : PromiseSettledResult (option ContributionCalendar)) (index : nat)
    : Completion Totals :=
  let '(total, byAccount) := st in
  match accounts !! index with
  | None => Throw (TypeError "username")
  | Some account =>
      let username := username account in
      match result with
      | fulfilled (Some value) =>
          let count := totalContributions value in
          Normal ((total + count)%Z, JsObject.set username count byAccount)
      | _ => Normal (total, JsObject.set username 0%Z byAccount)
      end
  end.

(** [array.forEach((x, index) => ...)] from [index] on, threading the
    captured locals. *)
Fixpoint forEachFrom {A St : Type} (f : St -> A -> nat -> Completion St)
    (l : list A) (index : nat) (s : St) : Completion St :=
  match l with
  | [] => Normal s
  | x :: l' =>
      match f s x index with
      | Normal s' => forEachFrom f l' (S index) s'
      | Throw e => Throw e
      end
  end.

Section Aggregator.

(** The fetcher the aggregator fans out; [aggregateContributions] below
    instantiates it with [fetchGitHubContributions]. *)
Variable fetcher : string -> option string -> M (option ContributionCalendar).

Definition aggregateContributionsWith (schedule : list nat)
    (accounts : list Account) : M Aggregate.result :=
  (let* results :=
     allSettled schedule
       (map (fun a => fetcher (username a) (token a)) accounts) in
   match forEachFrom (forEach_callback accounts) results 0 (0%Z, JsObject.empty) with
   | Normal (totalContributions, byAccount) =>
       ret {| Aggregate.totalContributions := totalContributions;
              Aggregate.byAccount := byAccount |}
   | Throw e => throw e
   end)%js.

(** What an account adds to the combined total, by how its fetch ended. *)
Definition contribution (account : Account) : Z :=
  match outcome (fetcher (username account) (token account)) with
  | Normal (Some calendar) => totalContributions calendar
  | _ => 0%Z
  end.

(** What the callback writes for an account. *)
Definition record_account (o : JsObject.t Z) (a : Account) : JsObject.t Z :=
  JsObject.set (username a) (contribution a) o.

End Aggregator.

Definition aggregateContributions (env : ProcessEnv)
    (transport : Request -> Completion Response)
    (schedule : list nat) (accounts : list Account) : M Aggregate.result :=
  aggregateContributionsWith (fetchGitHubContributions env transport)
    schedule accounts.

(** ** The window selector over a store of objects

    [getRecentContributions] receives a reference to a calendar object whose
    weeks, day arrays and days are objects of their own.  The store-level
    version below allocates what [flatMap] and [slice] allocate and reads
    what they read, so that what the call leaves in the store can be
    stated. *)

Module Heap.

Abbreviation loc := positive.

Inductive object :=
| ODay (day : ContributionDay)
| OWeek (contributionDays : loc)
| OCalendar (totalContributions : Z) (weeks : loc)
| OArray (elems : list loc).

Abbreviation heap := (gmap loc object).

(** A new object, at an address the store does not use yet. *)
Definition alloc (o : object) (h : heap) : loc * heap :=
  let l := fresh (dom h) in (l, <[l := o]> h).

Definition read_array (h : heap) (l : loc) : option (list loc) :=
  match h !! l with
  | Some (OArray elems) => Some elems
  | _ => None
  end.

Definition read_day (h : heap) (l : loc) : option ContributionDay :=
  match h !! l with
  | Some (ODay d) => Some d
  | _ => None
  end.

(** The days an array of day references holds. *)
Definition read_days (h : heap) (arr : loc) : option (list ContributionDay) :=
  elems ← read_array h arr; mapM (read_day h) elems.

Definition read_week (h : heap) (l : loc) : option ContributionWeek :=
  match h !! l with
  | Some (OWeek dl) =>
      ds ← read_days h dl; Some {| contributionDays := ds |}
  | _ => None
  end.

(** The calendar value a reference stands for; [None] when the store
    does not hold a well-typed calendar there. *)
Definition read_calendar (h : heap) (l : loc) : option ContributionCalendar :=
  match h !! l with
  | Some (OCalendar total wl) =>
      ws ← read_array h wl;
      weeks ← mapM (read_week h) ws;
      Some {| totalContributions := total; weeks := weeks |}
  | _ => None
  end.

(** [week => week.contributionDays] *)
Definition week_contributionDays (h : heap) (week : loc) : option (list loc) :=
  match h !! week with
  | Some (OWeek dl) => read_array h dl
  | _ => None
  end.

(** [arr.flatMap(f)]: a new array. *)
Definition flatMap (h : heap) (f : loc -> option (list loc)) (arr : loc)
    : option (loc * heap) :=
  elems ← read_array h arr;
  parts ← mapM f elems;
  Some (alloc (OArray (concat parts)) h).

(** [arr.slice(start)]: a new array. *)
Definition slice (h : heap) (start : Z) (arr : loc) : option (loc * heap) :=
  elems ← read_array h arr;
  Some (alloc (OArray (JsArray.slice start elems)) h).

(** [None] when the store is not well typed at [calendar]. *)
Definition getRecentContributions (h : heap) (calendar : loc) (days : option Z)
    : option (loc * heap) :=
  let days := default days_default days in
  match h !! calendar with
  | Some (OCalendar _ weeks) =>
      '(allDays, h1) ← flatMap h (week_contributionDays h) weeks;
      slice h1 (- days) allDays
  | _ => None
  end.

End Heap.

(** ** Sample inputs *)

Definition sample_day (n : nat) : ContributionDay :=
  {| date := "2024-01-01";
     contributionCount := Z.of_nat n;
     contributionLevel := if decide (n = 0) then NONE else FIRST_QUARTILE |}.

(** Week [k] holds the days numbered [7k] to [7k+6]. *)
Definition sample_week (k : nat) : ContributionWeek :=
  {| contributionDays := map (fun i => sample_day (7 * k + i)) (seq 0 7) |}.

(** A calendar of [n] full weeks. *)
Definition sample_calendar (n : nat) : ContributionCalendar :=
  {| totalContributions := 0; weeks := map sample_week (seq 0 n) |}.

(** One week holding two days. *)
Definition two_day_calendar : ContributionCalendar :=
  {| totalContributions := 3;
     weeks := [ {| contributionDays := [sample_day 1; sample_day 2] |} ] |}.

Definition no_env : ProcessEnv :=
  {| GITHUB_TOKEN_PERSONAL := None; GITHUB_TOKEN := None |}.

Definition calendar_of_total (n : Z) : ContributionCalendar :=
  {| totalContributions := n; weeks := [] |}.

Definition ok_response (calendar : ContributionCalendar) : Response :=
  {| ok := true; status := 200; statusText := "OK";
     json := Normal {| data := Some {| user := Some {|
       contributionsCollection := {| contributionCalendar := calendar |} |} |} |} |}.

Definition unauthorized_response : Response :=
  {| ok := false; status := 401; statusText := "Unauthorized";
     json := Throw (Fault "no body") |}.

(** A transport that answers every request with a calendar of total 5. *)
Definition transport_five (r : Request) : Completion Response :=
  Normal (ok_response (calendar_of_total 5)).

(** A transport that knows one credential. *)
Definition transport_one_credential (r : Request) : Completion Response :=
  if String.eqb (authorization r) "Bearer good"
  then Normal (ok_response (calendar_of_total 120))
  else Normal unauthorized_response.

(** Two accounts with different usernames: the first has the credential
    the transport knows, the second has not. *)
Definition two_accounts : list Account :=
  [ {| username := "octocat"; token := Some "good" |};
    {| username := "hubot"; token := Some "bad" |} ].

(** The same username twice. *)
Definition duplicate_accounts : list Account :=
  [ {| username := "octocat"; token := Some "good" |};
    {| username := "octocat"; token := Some "good" |} ].

(** Two accounts whose usernames are decimal numbers. *)
Definition numeric_accounts : list Account :=
  [ {| username := "2"; token := Some "good" |};
    {| username := "1"; token := Some "bad" |} ].

(** A store holding [two_day_calendar] at address 1. *)
Definition sample_heap : gmap positive Heap.object :=
  <[1%positive := Heap.OCalendar 3 2]>
  (<[2%positive := Heap.OArray [3%positive]]>
  (<[3%positive := Heap.OWeek 4]>
  (<[4%positive := Heap.OArray [5%positive; 6%positive]]>
  (<[5%positive := Heap.ODay (sample_day 1)]>
  (<[6%positive := Heap.ODay (sample_day 2)]> ∅))))).

(** ** Contribution graph component (components/github-contributions.tsx) *)

(** The class names of [levelColors] (lines 33-39). *)
Definition levelColors (level : ContributionLevel) : string :=
  match level with
  | NONE => "bg-neutral-100 dark:bg-neutral-800"
  | FIRST_QUARTILE => "bg-green-200 dark:bg-green-900"
  | SECOND_QUARTILE => "bg-green-400 dark:bg-green-700"
  | THIRD_QUARTILE => "bg-green-600 dark:bg-green-500"
  | FOURTH_QUARTILE => "bg-green-700 dark:bg-green-400"
  end.

(** One square of the grid (lines 141-151): its React key, the class that
    depends on the day, and the count and date its title is built from. *)
Record Cell := {
  cell_key : string;
  cell_color : string;
  cell_count : Z;
  cell_date : string
}.

Definition day_cell (day : ContributionDay) : Cell :=
  {| cell_key := date day;
     cell_color := levelColors (contributionLevel day);
     cell_count := contributionCount day;
     cell_date := date day |}.

(** What the component renders: the notice of lines 79-85, or the
    statistics and the grid of lines 93-185.  [accountRows] is the
    by-account block, present when there is more than one account. *)
Inductive View :=
| UnableToLoad
| ContributionGraph (total : Z) (accountRows : option (list (string * Z)))
    (columns : nat) (cells : list Cell).

(** [Math.ceil(n / 7)] for an array length [n]. *)
Definition weeks_of (n : nat) : nat := (n + 6) / 7.

(** The default of the [days] property (line 67). *)
Definition days_display_default : Z := 90.

Definition GitHubContributions (env : ProcessEnv)
    (transport : Request -> Completion Response) (schedule : list nat)
    (accounts : list Account) (days : option Z) : M View :=
  (let days := default days_display_default days in
   let* aggregated := aggregateContributions env transport schedule accounts in
   match accounts !! 0 with
   | None => throw (TypeError "username")
   | Some primary =>
       let* primaryCalendar :=
         fetchGitHubContributions env transport (username primary) (token primary) in
       match primaryCalendar with
       | None => ret UnableToLoad
       | Some calendar =>
           let recentDays := getRecentContributions calendar (Some days) in
           let weeks := weeks_of (length recentDays) in
           ret (ContributionGraph
                  (Aggregate.totalContributions aggregated)
                  (if decide (1 < length accounts)
                   then Some (JsObject.entries (Aggregate.byAccount aggregated))
                   else None)
                  weeks
                  (map day_cell recentDays))
       end
   end)%js.

(** ** The activity section of the home page (page.tsx, lines 108-122) *)

(** The page reads one more variable than the library. *)
Record PageEnv := {
  process_env : ProcessEnv;
  GITHUB_TOKEN_WORK : option string
}.

Definition page_accounts (penv : PageEnv) : list Account :=
  [ {| username := "j-romo"; token := GITHUB_TOKEN_PERSONAL (process_env penv) |};
    {| username := "jromo-mdb"; token := GITHUB_TOKEN_WORK penv |} ].

Definition page_activity (penv : PageEnv)
    (transport : Request -> Completion Response) (schedule : list nat) : M View :=
  GitHubContributions (process_env penv) transport schedule (page_accounts penv)
    (Some 365%Z).

(** The request for an account, if a credential resolved for it. *)
Definition request_with (username : string) (credential : option string)
    : list Request :=
  match credential with
  | Some c => [graphql_request username c]
  | None => []
  end.

(** ** Further sample inputs *)

(** A calendar of 13 weeks whose total is its number of days. *)
Definition sample_year : ContributionCalendar :=
  {| totalContributions := 91; weeks := weeks (sample_calendar 13) |}.

(** A transport that answers the known credential with that calendar and
    refuses any other. *)
Definition transport_year (r : Request) : Completion Response :=
  if String.eqb (authorization r) "Bearer good"
  then Normal (ok_response sample_year)
  else Normal unauthorized_response.

(** Three accounts, the second named after the prototype accessor. *)
Definition accounts_with_proto : list Account :=
  [ {| username := "octocat"; token := Some "good" |};
    {| username := "__proto__"; token := Some "bad" |};
    {| username := "hubot"; token := Some "bad" |} ].

(** The same username twice, the second time with a refused credential. *)
Definition repeated_accounts : list Account :=
  [ {| username := "octocat"; token := Some "good" |};
    {| username := "octocat"; token := Some "bad" |} ].

(** Only the work token is configured. *)
Definition penv_work_only : PageEnv :=
  {| process_env := no_env; GITHUB_TOKEN_WORK := Some "good" |}.

(** A fetcher that faults for every account. *)
Definition faulting_fetcher (username : string) (token : option string)
    : M (option ContributionCalendar) :=
  ([], Throw (Fault "offline")).

Definition env_generic_only : ProcessEnv :=
  {| GITHUB_TOKEN_PERSONAL := None; GITHUB_TOKEN := Some "good" |}.

Definition env_personal : ProcessEnv :=
  {| GITHUB_TOKEN_PERSONAL := Some "good"; GITHUB_TOKEN := None |}.

(** * Properties *)

(** ** The embedding on concrete inputs *)

Example slice_last_two : JsArray.slice (- 2) [1; 2; 3] = [2; 3].
Proof. reflexivity. Qed.

Example slice_more_than_length : JsArray.slice (- 5) [1; 2; 3] = [1; 2; 3].
Proof. reflexivity. Qed.

Example slice_from_one : JsArray.slice 1 [1; 2; 3] = [2; 3].
Proof. reflexivity. Qed.

Example arrayIndex_samples :
  JsObject.arrayIndex "0" = Some 0%N
  /\ JsObject.arrayIndex "42" = Some 42%N
  /\ JsObject.arrayIndex "042" = None
  /\ JsObject.arrayIndex "4294967294" = Some 4294967294%N
  /\ JsObject.arrayIndex "4294967295" = None
  /\ JsObject.arrayIndex "octocat" = None
  /\ JsObject.arrayIndex "" = None.
Proof. repeat split. Qed.

Example keys_numeric_first :
  JsObject.keys [("b", 1%Z); ("10", 2%Z); ("a", 3%Z); ("9", 4%Z)]
  = ["9"; "10"; "b"; "a"].
Proof. reflexivity. Qed.

Example set_proto_ignored :
  JsObject.set "__proto__" 5%Z [("octocat", 1%Z)] = [("octocat", 1%Z)].
Proof. reflexivity. Qed.

Example set_inherited_name :
  JsObject.set "toString" 5%Z [("octocat", 1%Z)]
  = [("octocat", 1%Z); ("toString", 5%Z)].
Proof. reflexivity. Qed.

Example get_samples :
  JsObject.get "octocat" [("octocat", 1%Z)] = JsObject.Own 1%Z
  /\ JsObject.get "hubot" [("octocat", 1%Z)] = JsObject.Undefined
  /\ JsObject.get "toString" [("octocat", 1%Z)] = JsObject.Inherited "toString"
  /\ JsObject.get "__proto__" [("octocat", 1%Z)] = JsObject.Inherited "__proto__".
Proof. repeat split. Qed.

Example interleave_sample :
  interleave [1; 0; 1]
    [ [ConsoleWarn (UserNotFound "a")];
      [ConsoleWarn (UserNotFound "b"); ConsoleWarn (UserNotFound "c")] ]
  = [ ConsoleWarn (UserNotFound "b"); ConsoleWarn (UserNotFound "a");
      ConsoleWarn (UserNotFound "c") ].
Proof. reflexivity. Qed.

Example fetch_known_credential :
  fetchGitHubContributions no_env transport_one_credential "octocat" (Some "good")
  = ([NetworkRequest (graphql_request "octocat" "good")],
     Normal (Some (calendar_of_total 120))).
Proof. reflexivity. Qed.

Example fetch_unknown_credential :
  fetchGitHubContributions no_env transport_one_credential "hubot" (Some "bad")
  = ([NetworkRequest (graphql_request "hubot" "bad");
      ConsoleError (FailedToFetch "hubot" (ApiError 401 "Unauthorized"))],
     Normal None).
Proof. reflexivity. Qed.

Example fetch_generic_fallback :
  fetchGitHubContributions
    {| GITHUB_TOKEN_PERSONAL := Some ""; GITHUB_TOKEN := Some "good" |}
    transport_one_credential "octocat" None
  = ([NetworkRequest (graphql_request "octocat" "good")],
     Normal (Some (calendar_of_total 120))).
Proof. reflexivity. Qed.

Example aggregate_two_accounts (schedule : list nat) :
  outcome (aggregateContributions no_env transport_one_credential schedule
             two_accounts)
  = Normal {| Aggregate.totalContributions := 120;
              Aggregate.byAccount := [("octocat", 120%Z); ("hubot", 0%Z)] |}.
Proof. reflexivity. Qed.

(** Both requests leave before the refusal of the first is logged. *)
Example aggregate_events_refused_first (schedule : list nat) :
  events (aggregateContributions no_env transport_one_credential schedule
            (reverse two_accounts))
  = [ NetworkRequest (graphql_request "hubot" "bad");
      NetworkRequest (graphql_request "octocat" "good");
      ConsoleError (FailedToFetch "hubot" (ApiError 401 "Unauthorized")) ].
Proof.
  unfold aggregateContributions, aggregateContributionsWith, events. simpl.
  f_equal. f_equal. rewrite app_nil_r.
  induction schedule as [| [| [| i]] schedule IH]; simpl; try exact IH;
    try reflexivity.
  clear IH. induction schedule as [| [| [| i]] schedule IH]; simpl; done.
Qed.

(** An account named after the prototype accessor counts in the total and
    leaves no property. *)
Example aggregate_proto_username (schedule : list nat) :
  outcome (aggregateContributions no_env transport_five schedule accounts_with_proto)
  = Normal {| Aggregate.totalContributions := 15;
              Aggregate.byAccount := [("octocat", 5%Z); ("hubot", 5%Z)] |}.
Proof. reflexivity. Qed.

(** ** Arrays *)

Lemma slice_negative {A : Type} (d : Z) (l : list A) :
  (0 < d)%Z -> JsArray.slice (- d) l = drop (length l - Z.to_nat d) l.
Proof.
  intros Hd. unfold JsArray.slice.
  destruct (Z.ltb_spec (- d) 0) as [_ | Hge]; [| lia].
  f_equal. lia.
Qed.

(** [slice(-0)] is [slice(0)]: the whole array. *)
Lemma slice_zero {A : Type} (l : list A) : JsArray.slice (- 0) l = l.
Proof.
  unfold JsArray.slice.
  change (- 0 <? 0)%Z with false. cbv iota zeta.
  replace (Z.to_nat (Z.min (- 0) (Z.of_nat (length l)))) with 0 by lia.
  reflexivity.
Qed.

Lemma slice_is_drop {A : Type} (start : Z) (l : list A) :
  exists n, JsArray.slice start l = drop n l.
Proof. unfold JsArray.slice. eauto. Qed.

Lemma flatMap_app {A B : Type} (f : A -> list B) (l1 l2 : list A) :
  JsArray.flatMap f (l1 ++ l2) = JsArray.flatMap f l1 ++ JsArray.flatMap f l2.
Proof. unfold JsArray.flatMap. by rewrite map_app, concat_app. Qed.

(** ** Window selector *)

(** For a positive day count the selector returns the last
    [min days totalDays] days of the flattened calendar. *)
Lemma getRecentContributions_positive (calendar : ContributionCalendar) (days : Z) :
  (0 < days)%Z ->
  let allDays := JsArray.flatMap contributionDays (weeks calendar) in
  let recent := getRecentContributions calendar (Some days) in
  length recent = Nat.min (Z.to_nat days) (totalDays calendar)
  /\ recent = drop (totalDays calendar - Z.to_nat days) allDays
  /\ (exists earlier, allDays = earlier ++ recent)
  /\ ((Z.of_nat (totalDays calendar) <= days)%Z -> recent = allDays).
Proof.
  intros Hd allDays recent.
  assert (Hrec : recent = drop (totalDays calendar - Z.to_nat days) allDays).
  { subst recent. unfold getRecentContributions. simpl.
    by rewrite slice_negative. }
  repeat split.
  - rewrite Hrec, length_drop. unfold totalDays. fold allDays. lia.
  - exact Hrec.
  - exists (take (totalDays calendar - Z.to_nat days) allDays).
    by rewrite Hrec, take_drop.
  - intros Hle. rewrite Hrec.
    replace (totalDays calendar - Z.to_nat days) with 0 by lia.
    reflexivity.
Qed.

Example getRecentContributions_last_day :
  length (getRecentContributions two_day_calendar (Some 1%Z)) = 1.
Proof.
  destruct (getRecentContributions_positive two_day_calendar 1 ltac:(lia))
    as [Hlen _].
  exact Hlen.
Defined.

(** Without a day count the selector behaves as with 365. *)
Lemma getRecentContributions_default (calendar : ContributionCalendar) :
  getRecentContributions calendar None = getRecentContributions calendar (Some 365%Z).
Proof. reflexivity. Qed.

(** C3 (code): with day count 0 the selector returns every day of the
    calendar, because [allDays.slice(-0)] is [allDays.slice(0)]; it is empty
    only for a calendar without days. *)
Theorem getRecentContributions_zero_returns_all (calendar : ContributionCalendar) :
  getRecentContributions calendar (Some 0%Z)
  = JsArray.flatMap contributionDays (weeks calendar).
Proof. unfold getRecentContributions. simpl default. apply slice_zero. Qed.

(** C2 (code at the failing input): on a calendar of two days and day count
    0 the selector returns both days, not [min 0 2 = 0] entries. *)
Theorem getRecentContributions_zero_two_days :
  getRecentContributions two_day_calendar (Some 0%Z) = [sample_day 1; sample_day 2]
  /\ totalDays two_day_calendar = 2
  /\ length (getRecentContributions two_day_calendar (Some 0%Z))
     <> Nat.min 0 (totalDays two_day_calendar).
Proof. repeat split. vm_compute. discriminate. Qed.

(** C8 (code at the failing input): on a calendar of 13 weeks (91 days) the
    selector called without a day count returns all 91 days, with day count
    90 it returns 90; the parameter's default is 365. *)
Theorem getRecentContributions_default_not_90 :
  length (getRecentContributions (sample_calendar 13) None) = 91
  /\ length (getRecentContributions (sample_calendar 13) (Some 90%Z)) = 90
  /\ getRecentContributions (sample_calendar 13) None
     <> getRecentContributions (sample_calendar 13) (Some 90%Z)
  /\ days_default = 365%Z.
Proof.
  repeat split.
  intros Heq. apply (f_equal length) in Heq. vm_compute in Heq. discriminate.
Qed.

(** ** Remote activity fetcher *)

Lemma truthy_Some (s : option string) :
  truthy s = true -> exists c, s = Some c /\ c <> "".
Proof.
  destruct s as [c |]; simpl; [| discriminate].
  intros H. exists c. split; [reflexivity |].
  intros ->. discriminate.
Qed.

(** [||] over the three candidates picks the first that is present and
    not empty; when there is none its value is falsy. *)
Lemma githubToken_first_resolved (token : option string) (env : ProcessEnv) :
  match first_resolved [token; GITHUB_TOKEN_PERSONAL env; GITHUB_TOKEN env] with
  | Some c => githubToken token env = Some c /\ c <> ""
  | None => truthy (githubToken token env) = false
  end.
Proof.
  unfold githubToken, js_or. destruct env as [personal generic]. simpl.
  destruct token as [t |]; destruct personal as [p |]; destruct generic as [g |];
    simpl;
    repeat match goal with
    | |- context [String.eqb ?x ""] => destruct (String.eqb_spec x ""); subst; simpl
    end;
    first [ reflexivity | congruence | split; [reflexivity | assumption] ].
Qed.

(** The fetcher with a resolved credential: one request, then the
    response decides. *)
Lemma fetchGitHubContributions_resolved
    (env : ProcessEnv) (transport : Request -> Completion Response)
    (username : string) (token : option string) (c : string) :
  githubToken token env = Some c -> c <> "" ->
  exists evs r,
    fetchGitHubContributions env transport username token
    = (NetworkRequest (graphql_request username c) :: evs, Normal r)
    /\ Forall (fun ev => forall q, ev <> NetworkRequest q) evs.
Proof.
  intros Htok Hc. unfold fetchGitHubContributions. rewrite Htok.
  assert (Ht : truthy (Some c) = true).
  { simpl. destruct (String.eqb_spec c ""); [contradiction | reflexivity]. }
  rewrite Ht. simpl negb. cbv iota. simpl default.
  unfold fetch, response_json, try_catch, bind, throw, ret, console_warn,
    console_error, emit.
  destruct (transport (graphql_request username c)) as [resp | e]; simpl.
  - destruct (ok resp); simpl.
    + destruct (json resp) as [result | e]; simpl.
      * destruct (data_user result); simpl; eexists _, _; split;
          try reflexivity; repeat constructor; discriminate.
      * eexists _, _; split; [reflexivity |]. repeat constructor; discriminate.
    + eexists _, _; split; [reflexivity |]. repeat constructor; discriminate.
  - eexists _, _; split; [reflexivity |]. repeat constructor; discriminate.
Qed.

(** The fetcher without a credential: a warning, absence, no request. *)
Lemma fetchGitHubContributions_unresolved
    (env : ProcessEnv) (transport : Request -> Completion Response)
    (username : string) (token : option string) :
  truthy (githubToken token env) = false ->
  fetchGitHubContributions env transport username token
  = ([ConsoleWarn NoTokenConfigured], Normal None).
Proof.
  intros Hf. unfold fetchGitHubContributions. rewrite Hf. reflexivity.
Qed.

Lemma omap_no_request (evs : list Event) :
  Forall (fun ev => forall q, ev <> NetworkRequest q) evs ->
  omap (fun ev => match ev with NetworkRequest r => Some r | _ => None end) evs = [].
Proof.
  induction 1 as [| ev evs Hev _ IH]; [reflexivity |].
  simpl. destruct ev as [q | |]; [by destruct (Hev q) | exact IH | exact IH].
Qed.

(** What the fetcher resolves to, by cases on the credential and on what
    the transport does. *)
Lemma fetchGitHubContributions_outcome
    (env : ProcessEnv) (transport : Request -> Completion Response)
    (username : string) (token : option string) :
  outcome (fetchGitHubContributions env transport username token)
  = Normal
      match first_resolved [token; GITHUB_TOKEN_PERSONAL env; GITHUB_TOKEN env] with
      | None => None
      | Some c =>
          match transport (graphql_request username c) with
          | Throw _ => None
          | Normal response =>
              if ok response then
                match json response with
                | Throw _ => None
                | Normal result =>
                    match data_user result with
                    | None => None
                    | Some u => Some (contributionCalendar (contributionsCollection u))
                    end
                end
              else None
          end
      end.
Proof.
  pose proof (githubToken_first_resolved token env) as H.
  destruct (first_resolved _) as [c |].
  - destruct H as [Htok Hne]. unfold fetchGitHubContributions. rewrite Htok.
    assert (Ht : truthy (Some c) = true).
    { simpl. destruct (String.eqb_spec c ""); [contradiction | reflexivity]. }
    rewrite Ht. simpl negb. cbv iota. simpl default.
    unfold fetch, response_json, try_catch, bind, throw, ret, console_warn,
      console_error, emit, outcome.
    destruct (transport (graphql_request username c)) as [resp | e]; simpl;
      [| reflexivity].
    destruct (ok resp); simpl; [| reflexivity].
    destruct (json resp) as [result | e]; simpl; [| reflexivity].
    destruct (data_user result); reflexivity.
  - by rewrite (fetchGitHubContributions_unresolved _ _ _ _ H).
Qed.

(** C4: whatever the environment, the arguments and the transport do, the
    fetcher completes normally, with a calendar or with the absence value,
    never by throwing: a missing credential, a rejected [fetch], a response
    that is not ok, a rejected [json()] and a payload without [data.user]
    all give absence. *)
Theorem fetchGitHubContributions_never_throws
    (env : ProcessEnv) (transport : Request -> Completion Response)
    (username : string) (token : option string) :
  (exists r : option ContributionCalendar,
     outcome (fetchGitHubContributions env transport username token) = Normal r)
  /\ (forall e, outcome (fetchGitHubContributions env transport username token)
               <> Throw e)
  /\ outcome (fetchGitHubContributions env transport username token)
     = Normal
         match first_resolved [token; GITHUB_TOKEN_PERSONAL env; GITHUB_TOKEN env] with
         | None => None
         | Some c =>
             match transport (graphql_request username c) with
             | Throw _ => None
             | Normal response =>
                 if ok response then
                   match json response with
                   | Throw _ => None
                   | Normal result =>
                       match data_user result with
                       | None => None
                       | Some u => Some (contributionCalendar (contributionsCollection u))
                       end
                   end
                 else None
             end
         end.
Proof.
  pose proof (fetchGitHubContributions_outcome env transport username token) as H.
  split; [| split].
  - eexists. exact H.
  - intros e. rewrite H. discriminate.
  - exact H.
Qed.

(** The fetcher by the candidate that resolves. *)
Lemma fetchGitHubContributions_by_candidates
    (env : ProcessEnv) (transport : Request -> Completion Response)
    (username : string) (token : option string) :
  match first_resolved [token; GITHUB_TOKEN_PERSONAL env; GITHUB_TOKEN env] with
  | Some c =>
      githubToken token env = Some c
      /\ requests (fetchGitHubContributions env transport username token)
         = [graphql_request username c]
      /\ authorization (graphql_request username c) = "Bearer " +:+ c
  | None =>
      fetchGitHubContributions env transport username token
      = ([ConsoleWarn NoTokenConfigured], Normal None)
      /\ requests (fetchGitHubContributions env transport username token) = []
  end.
Proof.
  pose proof (githubToken_first_resolved token env) as H.
  destruct (first_resolved _) as [c |].
  - destruct H as [Htok Hne]. split; [exact Htok |]. split; [| reflexivity].
    destruct (fetchGitHubContributions_resolved env transport username token c Htok Hne)
      as (evs & r & Heq & Hevs).
    rewrite Heq. unfold requests, events. simpl.
    by rewrite omap_no_request.
  - rewrite (fetchGitHubContributions_unresolved _ _ _ _ H). split; reflexivity.
Qed.

(** C5: the credential is the first present, non-empty one among the
    explicit token, GITHUB_TOKEN_PERSONAL and GITHUB_TOKEN, in this order, and
    it is the bearer of the one request issued; when none resolves the
    fetcher returns absence after a warning and issues no request. *)
Theorem fetchGitHubContributions_credential_order
    (env : ProcessEnv) (transport : Request -> Completion Response)
    (username : string) (token : option string) :
  match first_resolved [token; GITHUB_TOKEN_PERSONAL env; GITHUB_TOKEN env] with
  | Some c =>
      githubToken token env = Some c
      /\ requests (fetchGitHubContributions env transport username token)
         = [graphql_request username c]
      /\ authorization (graphql_request username c) = "Bearer " +:+ c
  | None =>
      fetchGitHubContributions env transport username token
      = ([ConsoleWarn NoTokenConfigured], Normal None)
      /\ requests (fetchGitHubContributions env transport username token) = []
  end.
Proof. apply fetchGitHubContributions_by_candidates. Qed.

(** C10: an explicit empty token is the same call as no token: the empty
    string is never the bearer; the fallbacks decide, and with none of them
    the result is absence without a request. *)
Theorem fetchGitHubContributions_empty_token
    (env : ProcessEnv) (transport : Request -> Completion Response)
    (username : string) :
  fetchGitHubContributions env transport username (Some "")
  = fetchGitHubContributions env transport username None
  /\ match first_resolved [GITHUB_TOKEN_PERSONAL env; GITHUB_TOKEN env] with
     | Some c =>
         c <> ""
         /\ requests (fetchGitHubContributions env transport username (Some ""))
            = [graphql_request username c]
     | None =>
         fetchGitHubContributions env transport username (Some "")
         = ([ConsoleWarn NoTokenConfigured], Normal None)
     end.
Proof.
  split; [reflexivity |].
  pose proof (githubToken_first_resolved (Some "") env) as H.
  pose proof (fetchGitHubContributions_by_candidates env transport username (Some "")) as H5.
  change (first_resolved [Some ""; GITHUB_TOKEN_PERSONAL env; GITHUB_TOKEN env])
    with (first_resolved [GITHUB_TOKEN_PERSONAL env; GITHUB_TOKEN env]) in H, H5.
  destruct (first_resolved _) as [c |].
  - destruct H as [_ Hne]. destruct H5 as (_ & Hreq & _). by split.
  - by destruct H5 as [Heq _].
Qed.

(** ** Plain objects *)

Lemma getOwn_define_eq {V : Type} (k : string) (v : V) (o : JsObject.t V) :
  JsObject.getOwn k (JsObject.define k v o) = Some v.
Proof.
  induction o as [| [k' v'] o IH]; simpl.
  - by rewrite String.eqb_refl.
  - destruct (String.eqb_spec k k') as [-> | Hne]; simpl.
    + by rewrite String.eqb_refl.
    + destruct (String.eqb_spec k k'); [contradiction | exact IH].
Qed.

Lemma getOwn_define_ne {V : Type} (k k' : string) (v : V) (o : JsObject.t V) :
  k <> k' -> JsObject.getOwn k' (JsObject.define k v o) = JsObject.getOwn k' o.
Proof.
  intros Hne. induction o as [| [k0 v0] o IH]; simpl.
  - destruct (String.eqb_spec k' k); [congruence | reflexivity].
  - destruct (String.eqb_spec k k0) as [-> | Hk]; simpl.
    + destruct (String.eqb_spec k' k0); [congruence | reflexivity].
    + destruct (String.eqb_spec k' k0); [reflexivity | exact IH].
Qed.

(** A key that is not there yet is created last. *)
Lemma define_new {V : Type} (k : string) (v : V) (o : JsObject.t V) :
  k ∉ map fst o -> JsObject.define k v o = o ++ [(k, v)].
Proof.
  induction o as [| [k' v'] o IH]; simpl; intros Hk; [reflexivity |].
  apply not_elem_of_cons in Hk as [Hne Hk].
  destruct (String.eqb_spec k k'); [contradiction |].
  by rewrite IH.
Qed.

(** Assignment: nothing for the key of the prototype accessor, an own
    property for every other key. *)
Lemma set_proto {V : Type} (v : V) (o : JsObject.t V) :
  JsObject.set "__proto__" v o = o.
Proof. reflexivity. Qed.

Lemma set_other {V : Type} (k : string) (v : V) (o : JsObject.t V) :
  k <> "__proto__" -> JsObject.set k v o = JsObject.define k v o.
Proof.
  intros Hne. unfold JsObject.set.
  destruct (String.eqb_spec k "__proto__"); [contradiction | reflexivity].
Qed.

Lemma get_own {V : Type} (k : string) (v : V) (o : JsObject.t V) :
  JsObject.getOwn k o = Some v -> JsObject.get k o = JsObject.Own v.
Proof. intros H. unfold JsObject.get. by rewrite H. Qed.

(** Reading back what was assigned. *)
Lemma get_set_eq {V : Type} (k : string) (v : V) (o : JsObject.t V) :
  k <> "__proto__" -> JsObject.get k (JsObject.set k v o) = JsObject.Own v.
Proof.
  intros Hne. rewrite set_other by exact Hne.
  apply get_own, getOwn_define_eq.
Qed.

Lemma getOwn_set_ne {V : Type} (k k' : string) (v : V) (o : JsObject.t V) :
  k <> k' -> JsObject.getOwn k' (JsObject.set k v o) = JsObject.getOwn k' o.
Proof.
  intros Hne. unfold JsObject.set.
  destruct (String.eqb k "__proto__"); [reflexivity |].
  by apply getOwn_define_ne.
Qed.

Lemma get_set_ne {V : Type} (k k' : string) (v : V) (o : JsObject.t V) :
  k <> k' -> JsObject.get k' (JsObject.set k v o) = JsObject.get k' o.
Proof. intros Hne. unfold JsObject.get. by rewrite getOwn_set_ne. Qed.

Lemma insertByIndex_perm {V : Type} (i : N) (p : string * V)
    (l : list (N * (string * V))) :
  JsObject.insertByIndex i p l ≡ₚ (i, p) :: l.
Proof.
  induction l as [| [j q] l IH]; simpl; [reflexivity |].
  destruct (i <=? j)%N; [reflexivity |].
  rewrite IH. apply Permutation_swap.
Qed.

(** Enumeration reorders the properties, it neither drops nor repeats one. *)
Lemma entries_perm {V : Type} (o : JsObject.t V) : JsObject.entries o ≡ₚ o.
Proof.
  unfold JsObject.entries.
  induction o as [| [k v] o IH]; simpl; [reflexivity |].
  destruct (JsObject.arrayIndex k) as [i |].
  - rewrite insertByIndex_perm. simpl. by rewrite IH.
  - rewrite <- Permutation_middle. by rewrite IH.
Qed.

Lemma sumZ_perm (l1 l2 : list Z) : l1 ≡ₚ l2 -> sumZ l1 = sumZ l2.
Proof.
  unfold sumZ. induction 1; simpl; lia.
Qed.

Lemma sumZ_values {V : Type} (o : JsObject.t Z) :
  sumZ (JsObject.values o) = sumZ (map snd o).
Proof.
  unfold JsObject.values. apply sumZ_perm. by rewrite entries_perm.
Qed.

(** The enumeration order of an object with two distinct keys. *)
Lemma keys_two {V : Type} (a b : string) (x y : V) :
  JsObject.keys [(a, x); (b, y)]
  = if enumerated_before a b then [a; b] else [b; a].
Proof.
  unfold JsObject.keys, JsObject.entries, enumerated_before. simpl.
  destruct (JsObject.arrayIndex a) as [i |];
    destruct (JsObject.arrayIndex b) as [j |]; simpl; try reflexivity.
  destruct (i <=? j)%N; reflexivity.
Qed.

(** The keys of an object none of which is an array index are enumerated
    in creation order. *)
Lemma keys_creation_order {V : Type} (o : JsObject.t V) :
  Forall (fun k => JsObject.arrayIndex k = None) (map fst o) ->
  JsObject.keys o = map fst o.
Proof.
  unfold JsObject.keys, JsObject.entries.
  induction o as [| [k v] o IH]; simpl; intros H; [reflexivity |].
  apply Forall_cons in H as [Hk H]. rewrite Hk.
  specialize (IH H).
  destruct (JsObject.indexProperties o) eqn:Hidx.
  - simpl in *. by rewrite IH.
  - assert (Hnil : JsObject.indexProperties o = []).
    { clear -H. induction o as [| [k' v'] o IH]; simpl; [reflexivity |].
      simpl in H. apply Forall_cons in H as [Hk H]. rewrite Hk. by apply IH. }
    congruence.
Qed.

(** ** Suspended computations *)

Lemma before_after_await (evs : list Event) :
  beforeFirstAwait evs ++ afterFirstAwait evs = evs.
Proof.
  induction evs as [| ev evs IH]; [reflexivity |].
  destruct ev; simpl; by rewrite ?IH.
Qed.

Lemma interleave_nil (schedule : list nat) : interleave schedule [] = [].
Proof. induction schedule as [| i schedule IH]; [reflexivity | exact IH]. Qed.

(** ** Aggregator *)

Section AggregatorFacts.

Variable fetcher : string -> option string -> M (option ContributionCalendar).

Lemma forEach_callback_step (accounts : list Account) (index : nat) (a : Account)
    (total : Z) (o : JsObject.t Z) :
  accounts !! index = Some a ->
  forEach_callback accounts (total, o)
    (settle (outcome (fetcher (username a) (token a)))) index
  = Normal ((total + contribution fetcher a)%Z, record_account fetcher o a).
Proof.
  intros Hl. unfold forEach_callback, record_account, contribution. rewrite Hl.
  destruct (outcome (fetcher (username a) (token a))) as [[calendar |] | e];
    simpl; try reflexivity; by rewrite Z.add_0_r.
Qed.

Lemma forEachFrom_accounts (accounts : list Account) :
  forall (rest done : list Account) (total : Z) (o : JsObject.t Z),
  accounts = done ++ rest ->
  forEachFrom (forEach_callback accounts)
    (map (fun a => settle (outcome (fetcher (username a) (token a)))) rest)
    (length done) (total, o)
  = Normal ((total + sumZ (map (contribution fetcher) rest))%Z,
            fold_left (record_account fetcher) rest o).
Proof.
  induction rest as [| a rest IH]; intros done total o Hacc;
    cbn [map forEachFrom fold_left].
  - unfold sumZ. simpl. by rewrite Z.add_0_r.
  - rewrite (forEach_callback_step accounts (length done) a).
    + replace (S (length done)) with (length (done ++ [a]))
        by (rewrite length_app; simpl; lia).
      rewrite IH by (by rewrite <- app_assoc).
      f_equal. f_equal. unfold sumZ. simpl. lia.
    + subst accounts. by rewrite list_lookup_middle.
Qed.

(** The aggregator in closed form: it completes normally for every account
    list and every schedule, with the sum of the contributions and the
    object the callback builds account by account; its events are those of
    the fetches, the parts before the first suspension first. *)
Lemma aggregateContributionsWith_spec (schedule : list nat) (accounts : list Account) :
  aggregateContributionsWith fetcher schedule accounts
  = (concat (map (fun a => beforeFirstAwait (events (fetcher (username a) (token a))))
               accounts)
     ++ interleave schedule
          (map (fun a => afterFirstAwait (events (fetcher (username a) (token a))))
             accounts),
     Normal {| Aggregate.totalContributions := sumZ (map (contribution fetcher) accounts);
               Aggregate.byAccount :=
                 fold_left (record_account fetcher) accounts JsObject.empty |}).
Proof.
  unfold aggregateContributionsWith, allSettled, bind.
  rewrite !map_map.
  pose proof (forEachFrom_accounts accounts accounts [] 0%Z JsObject.empty eq_refl) as H.
  simpl in H. rewrite H. simpl. by rewrite app_nil_r.
Qed.

(** With pairwise distinct usernames every account creates its own
    property, except an account named after the prototype accessor, which
    creates none. *)
Lemma fold_record_account_distinct (rest : list Account) :
  forall o : JsObject.t Z,
  NoDup (map fst o ++ map username rest) ->
  fold_left (record_account fetcher) rest o
  = o ++ map (fun a => (username a, contribution fetcher a))
           (filter (fun a => username a <> "__proto__") rest).
Proof.
  induction rest as [| a rest IH]; intros o Hnd; simpl.
  - by rewrite app_nil_r.
  - assert (Hnd' := Hnd). simpl in Hnd'.
    rewrite <- Permutation_middle in Hnd'.
    apply NoDup_cons in Hnd' as [Hnew Hrest].
    unfold record_account at 2.
    destruct (decide (username a = "__proto__")) as [Hp | Hp].
    + rewrite Hp, set_proto, filter_cons_False by (intros H; by apply H).
      by apply IH.
    + rewrite set_other by exact Hp.
      rewrite define_new by (intros H; apply Hnew, elem_of_app; by left).
      rewrite filter_cons_True by exact Hp.
      rewrite IH.
      * by rewrite <- app_assoc.
      * rewrite map_app. simpl. rewrite <- app_assoc. exact Hnd.
Qed.

Lemma getOwn_of_distinct (l : list Account) (a : Account) :
  NoDup (map username l) -> a ∈ l ->
  JsObject.getOwn (username a) (map (fun a => (username a, contribution fetcher a)) l)
  = Some (contribution fetcher a).
Proof.
  induction l as [| b l IH]; intros Hnd Hin; [by apply elem_of_nil in Hin |].
  simpl in *. apply NoDup_cons in Hnd as [Hb Hnd].
  destruct (String.eqb_spec (username a) (username b)) as [Heq | Hne].
  - apply elem_of_cons in Hin as [-> | Hin]; [reflexivity |].
    exfalso. apply Hb. rewrite <- Heq. apply list_elem_of_fmap. eauto.
  - apply elem_of_cons in Hin as [-> | Hin]; [contradiction |]. by apply IH.
Qed.

Lemma filter_no_proto (l : list Account) :
  "__proto__" ∉ map username l ->
  filter (fun a => username a <> "__proto__") l = l.
Proof.
  induction l as [| a l IH]; intros H; [reflexivity |].
  simpl in H. apply not_elem_of_cons in H as [Ha H].
  rewrite filter_cons_True by congruence. by rewrite IH.
Qed.

End AggregatorFacts.

(** C1 (amended): for every account list with pairwise distinct usernames,
    none of them [__proto__], and every order of arrival of the responses,
    the aggregator completes normally; its combined total is the sum of the
    values of its per-account mapping; every account is recorded with what
    its fetch contributed; an account whose fetch returned absence or faulted
    is recorded with 0 and adds 0 to the total. *)
Theorem aggregate_total_is_sum_of_mapping
    (fetcher : string -> option string -> M (option ContributionCalendar))
    (schedule : list nat) (accounts : list Account) :
  NoDup (map username accounts) ->
  "__proto__" ∉ map username accounts ->
  exists res,
    outcome (aggregateContributionsWith fetcher schedule accounts) = Normal res
    /\ Aggregate.totalContributions res
       = sumZ (JsObject.values (Aggregate.byAccount res))
    /\ Aggregate.totalContributions res = sumZ (map (contribution fetcher) accounts)
    /\ (forall a, a ∈ accounts ->
          JsObject.get (username a) (Aggregate.byAccount res)
          = JsObject.Own (contribution fetcher a))
    /\ (forall a, a ∈ accounts ->
          outcome (fetcher (username a) (token a)) = Normal None
          \/ (exists e, outcome (fetcher (username a) (token a)) = Throw e) ->
          contribution fetcher a = 0%Z
          /\ JsObject.get (username a) (Aggregate.byAccount res) = JsObject.Own 0%Z).
Proof.
  intros Hnd Hproto. rewrite aggregateContributionsWith_spec.
  eexists. split; [reflexivity |].
  cbn [Aggregate.totalContributions Aggregate.byAccount].
  rewrite fold_record_account_distinct by exact Hnd.
  rewrite filter_no_proto by exact Hproto.
  unfold JsObject.empty. rewrite app_nil_l.
  assert (Hzero : forall a,
    outcome (fetcher (username a) (token a)) = Normal None
    \/ (exists e, outcome (fetcher (username a) (token a)) = Throw e) ->
    contribution fetcher a = 0%Z).
  { intros a [H | [e H]]; unfold contribution; by rewrite H. }
  repeat split.
  - rewrite (sumZ_values (V := Z)), map_map. reflexivity.
  - intros a Hin. by apply get_own, getOwn_of_distinct.
  - by apply Hzero.
  - rewrite <- (Hzero a) by assumption. by apply get_own, getOwn_of_distinct.
Qed.

(** The amended C1 at two accounts, one fetched, one refused. *)
Lemma aggregate_total_is_sum_of_mapping_witness :
  NoDup (map username two_accounts)
  /\ ("__proto__" ∉ map username two_accounts)
  /\ exists res,
       outcome (aggregateContributions no_env transport_one_credential [1; 0]
                  two_accounts)
       = Normal res
       /\ Aggregate.totalContributions res
          = sumZ (JsObject.values (Aggregate.byAccount res))
       /\ JsObject.get "octocat" (Aggregate.byAccount res) = JsObject.Own 120%Z
       /\ JsObject.get "hubot" (Aggregate.byAccount res) = JsObject.Own 0%Z.
Proof.
  assert (Hnd : NoDup (map username two_accounts)).
  { apply (bool_decide_unpack _). vm_compute. exact I. }
  assert (Hproto : "__proto__" ∉ map username two_accounts).
  { apply (bool_decide_unpack _). vm_compute. exact I. }
  split; [exact Hnd |]. split; [exact Hproto |].
  destruct (aggregate_total_is_sum_of_mapping
              (fetchGitHubContributions no_env transport_one_credential)
              [1; 0] two_accounts Hnd Hproto) as (res & Hres & Hsum & _ & Hget & _).
  exists res. split; [exact Hres |]. split; [exact Hsum |]. split.
  - apply (Hget {| username := "octocat"; token := Some "good" |}).
    apply elem_of_cons. by left.
  - apply (Hget {| username := "hubot"; token := Some "bad" |}).
    apply elem_of_cons. right. apply elem_of_cons. by left.
Defined.

(** C1 (as stated, refuted): with the same username twice, each fetch
    yielding 5, the combined total is 10 while the mapping holds the one
    entry octocat: 5; and with the distinct usernames octocat, __proto__ and
    hubot, each fetch yielding 5, the combined total is 15 while the mapping
    holds octocat: 5 and hubot: 5. *)
Lemma aggregate_duplicate_usernames_counterexample :
  (exists res,
     outcome (aggregateContributions no_env transport_five [] duplicate_accounts)
     = Normal res
     /\ Aggregate.totalContributions res = 10%Z
     /\ Aggregate.byAccount res = [("octocat", 5%Z)]
     /\ Aggregate.totalContributions res
        <> sumZ (JsObject.values (Aggregate.byAccount res)))
  /\ (exists res,
        outcome (aggregateContributions no_env transport_five [] accounts_with_proto)
        = Normal res
        /\ Aggregate.totalContributions res = 15%Z
        /\ Aggregate.byAccount res = [("octocat", 5%Z); ("hubot", 5%Z)]
        /\ Aggregate.totalContributions res
           <> sumZ (JsObject.values (Aggregate.byAccount res))).
Proof.
  split; eexists; (split; [reflexivity |]); repeat split; vm_compute; discriminate.
Qed.

(** C6 (amended): when the fetch for A yields a calendar of total 120 and the
    fetch for B yields absence, the aggregator over [A, B] returns the total
    120 and the object built by [byAccount[A] = 120; byAccount[B] = 0]; for
    A different from B, neither of them [__proto__], this object holds
    A: 120 and B: 0, and its keys are enumerated in input order exactly when
    B is not an array index or A is an array index not above B, and in the
    order B, A otherwise. *)
Theorem aggregate_calendar_and_absence
    (fetcher : string -> option string -> M (option ContributionCalendar))
    (schedule : list nat)
    (A B : string) (tokenA tokenB : option string)
    (calendar : ContributionCalendar) :
  outcome (fetcher A tokenA) = Normal (Some calendar) ->
  totalContributions calendar = 120%Z ->
  outcome (fetcher B tokenB) = Normal None ->
  exists res,
    outcome (aggregateContributionsWith fetcher schedule
               [ {| username := A; token := tokenA |};
                 {| username := B; token := tokenB |} ]) = Normal res
    /\ Aggregate.totalContributions res = 120%Z
    /\ Aggregate.byAccount res
       = JsObject.set B 0%Z (JsObject.set A 120%Z JsObject.empty)
    /\ (A <> B -> A <> "__proto__" -> B <> "__proto__" ->
          Aggregate.byAccount res = [(A, 120%Z); (B, 0%Z)]
          /\ JsObject.get A (Aggregate.byAccount res) = JsObject.Own 120%Z
          /\ JsObject.get B (Aggregate.byAccount res) = JsObject.Own 0%Z
          /\ JsObject.keys (Aggregate.byAccount res)
             = if enumerated_before A B then [A; B] else [B; A]).
Proof.
  intros HA H120 HB. rewrite aggregateContributionsWith_spec.
  eexists. split; [reflexivity |].
  cbn [Aggregate.totalContributions Aggregate.byAccount map fold_left].
  unfold record_account, contribution, sumZ. cbn [username token foldr].
  rewrite HA, HB, H120. split; [reflexivity |]. split; [reflexivity |].
  intros Hne HpA HpB.
  assert (Hobj : JsObject.set B 0%Z (JsObject.set A 120%Z JsObject.empty)
                 = [(A, 120%Z); (B, 0%Z)]).
  { rewrite !set_other by assumption. simpl.
    destruct (String.eqb_spec B A); [congruence | reflexivity]. }
  split; [exact Hobj |]. split; [| split].
  - rewrite get_set_ne by congruence. by apply get_set_eq.
  - by apply get_set_eq.
  - rewrite Hobj. apply (keys_two (V := Z)).
Qed.

(** The amended C6 at the usernames octocat and hubot. *)
Lemma aggregate_calendar_and_absence_witness :
  exists res,
    outcome (aggregateContributions no_env transport_one_credential [1; 0]
               two_accounts)
    = Normal res
    /\ Aggregate.totalContributions res = 120%Z
    /\ Aggregate.byAccount res = [("octocat", 120%Z); ("hubot", 0%Z)]
    /\ JsObject.keys (Aggregate.byAccount res) = ["octocat"; "hubot"].
Proof.
  destruct (aggregate_calendar_and_absence
              (fetchGitHubContributions no_env transport_one_credential) [1; 0]
              "octocat" "hubot" (Some "good") (Some "bad")
              (calendar_of_total 120) eq_refl eq_refl eq_refl)
    as (res & Hres & Htotal & _ & Hne).
  exists res. split; [exact Hres |]. split; [exact Htotal |].
  destruct Hne as (Hobj & _ & _ & Hkeys); [discriminate | discriminate | discriminate |].
  split; [exact Hobj | exact Hkeys].
Defined.

(** C6 (as stated, refuted): for the usernames 2 and 1, the fetch for 2
    yielding a calendar of total 120 and the fetch for 1 absence, the keys
    of the mapping are enumerated as 1, 2, not in the input order 2, 1. *)
Lemma aggregate_numeric_usernames_counterexample :
  outcome (fetchGitHubContributions no_env transport_one_credential "2" (Some "good"))
  = Normal (Some (calendar_of_total 120))
  /\ outcome (fetchGitHubContributions no_env transport_one_credential "1" (Some "bad"))
     = Normal None
  /\ exists res,
       outcome (aggregateContributions no_env transport_one_credential []
                  numeric_accounts)
       = Normal res
       /\ Aggregate.totalContributions res = 120%Z
       /\ JsObject.keys (Aggregate.byAccount res) = ["1"; "2"]
       /\ JsObject.keys (Aggregate.byAccount res) <> map username numeric_accounts.
Proof.
  split; [reflexivity |]. split; [reflexivity |].
  eexists. split; [reflexivity |]. repeat split. vm_compute. discriminate.
Qed.

(** The same for a second account named [__proto__]: the mapping holds the
    first account only. *)
Example aggregate_absent_proto_account (schedule : list nat) :
  outcome (aggregateContributions no_env transport_one_credential schedule
             [ {| username := "octocat"; token := Some "good" |};
               {| username := "__proto__"; token := Some "bad" |} ])
  = Normal {| Aggregate.totalContributions := 120;
              Aggregate.byAccount := [("octocat", 120%Z)] |}.
Proof. reflexivity. Qed.

(** C7: on the empty account list the aggregator returns the combined total
    0 and a mapping without properties, and does nothing else. *)
Theorem aggregate_no_accounts
    (env : ProcessEnv) (transport : Request -> Completion Response)
    (schedule : list nat) :
  aggregateContributions env transport schedule []
  = ([], Normal {| Aggregate.totalContributions := 0;
                   Aggregate.byAccount := JsObject.empty |})
  /\ JsObject.keys (JsObject.empty (V := Z)) = [].
Proof.
  split; [| reflexivity].
  unfold aggregateContributions. rewrite aggregateContributionsWith_spec.
  simpl. by rewrite interleave_nil.
Qed.

(** ** The window selector over the store *)

Section HeapFacts.

Implicit Types (h : gmap positive Heap.object) (l : positive).

Lemma alloc_spec (o : Heap.object) h :
  h ⊆ (Heap.alloc o h).2
  /\ (Heap.alloc o h).2 !! (Heap.alloc o h).1 = Some o
  /\ h !! (Heap.alloc o h).1 = None.
Proof.
  unfold Heap.alloc. cbn [fst snd].
  assert (Hfresh : h !! fresh (dom h) = None).
  { apply not_elem_of_dom, is_fresh. }
  split; [by apply insert_subseteq |]. split; [apply lookup_insert_eq | exact Hfresh].
Qed.

Lemma read_array_weaken h h' l (elems : list positive) :
  h ⊆ h' -> Heap.read_array h l = Some elems -> Heap.read_array h' l = Some elems.
Proof.
  intros Hsub. unfold Heap.read_array.
  destruct (h !! l) as [o |] eqn:E; [| discriminate].
  by rewrite (lookup_weaken _ _ _ _ E Hsub).
Qed.

Lemma read_day_weaken h h' l (d : ContributionDay) :
  h ⊆ h' -> Heap.read_day h l = Some d -> Heap.read_day h' l = Some d.
Proof.
  intros Hsub. unfold Heap.read_day.
  destruct (h !! l) as [o |] eqn:E; [| discriminate].
  by rewrite (lookup_weaken _ _ _ _ E Hsub).
Qed.

Lemma mapM_weaken {A B : Type} (f g : A -> option B) (xs : list A) (ys : list B) :
  (forall x y, f x = Some y -> g x = Some y) ->
  mapM f xs = Some ys -> mapM g xs = Some ys.
Proof.
  intros Hfg H. apply mapM_Some. apply mapM_Some in H.
  eapply Forall2_impl; [exact H | exact Hfg].
Qed.

Lemma read_days_weaken h h' l (ds : list ContributionDay) :
  h ⊆ h' -> Heap.read_days h l = Some ds -> Heap.read_days h' l = Some ds.
Proof.
  intros Hsub. unfold Heap.read_days.
  destruct (Heap.read_array h l) as [elems |] eqn:E; [| discriminate].
  rewrite (read_array_weaken _ _ _ _ Hsub E). simpl.
  apply mapM_weaken. intros x y. by apply read_day_weaken.
Qed.

Lemma read_week_weaken h h' l (w : ContributionWeek) :
  h ⊆ h' -> Heap.read_week h l = Some w -> Heap.read_week h' l = Some w.
Proof.
  intros Hsub. unfold Heap.read_week.
  destruct (h !! l) as [o |] eqn:E; [| discriminate].
  rewrite (lookup_weaken _ _ _ _ E Hsub).
  destruct o as [| dl | |]; try discriminate.
  destruct (Heap.read_days h dl) as [ds |] eqn:Hds; [| discriminate].
  by rewrite (read_days_weaken _ _ _ _ Hsub Hds).
Qed.

Lemma read_calendar_weaken h h' l (cal : ContributionCalendar) :
  h ⊆ h' -> Heap.read_calendar h l = Some cal -> Heap.read_calendar h' l = Some cal.
Proof.
  intros Hsub. unfold Heap.read_calendar.
  destruct (h !! l) as [o |] eqn:E; [| discriminate].
  rewrite (lookup_weaken _ _ _ _ E Hsub).
  destruct o as [| | total wl |]; try discriminate.
  destruct (Heap.read_array h wl) as [ws |] eqn:Hws; [| discriminate].
  rewrite (read_array_weaken _ _ _ _ Hsub Hws). simpl.
  destruct (mapM (Heap.read_week h) ws) as [wks |] eqn:Hwks; [| discriminate].
  rewrite (mapM_weaken (Heap.read_week h) (Heap.read_week h') ws wks); [done | | done].
  intros x y. by apply read_week_weaken.
Qed.

(** The references [flatMap] collects stand for the flattened days. *)
Lemma flatten_weeks h (ws : list positive) (wks : list ContributionWeek) :
  mapM (Heap.read_week h) ws = Some wks ->
  exists parts,
    mapM (Heap.week_contributionDays h) ws = Some parts
    /\ mapM (Heap.read_day h) (concat parts)
       = Some (JsArray.flatMap contributionDays wks).
Proof.
  intros H. apply mapM_Some in H.
  induction H as [| w wk ws wks Hw _ (parts & Hparts & Hdays)].
  - exists []. split; reflexivity.
  - unfold Heap.read_week in Hw.
    destruct (h !! w) as [o |] eqn:E; [| discriminate].
    destruct o as [| dl | |]; try discriminate.
    unfold Heap.read_days in Hw.
    destruct (Heap.read_array h dl) as [elems |] eqn:Helems; [| discriminate].
    simpl in Hw.
    destruct (mapM (Heap.read_day h) elems) as [ds |] eqn:Hds; [| discriminate].
    simpl in Hw. injection Hw as <-.
    exists (elems :: parts). split.
    + apply mapM_Some. constructor; [| by apply mapM_Some].
      unfold Heap.week_contributionDays. by rewrite E.
    + unfold JsArray.flatMap in *. simpl. apply mapM_Some.
      apply Forall2_app; by apply mapM_Some.
Qed.

Lemma mapM_slice {A B : Type} (f : A -> option B) (start : Z)
    (xs : list A) (ys : list B) :
  mapM f xs = Some ys ->
  mapM f (JsArray.slice start xs) = Some (JsArray.slice start ys).
Proof.
  intros H. unfold JsArray.slice. rewrite (length_mapM _ _ _ H).
  apply mapM_Some, Forall2_drop. by apply mapM_Some.
Qed.

Lemma heap_flatMap_eq h (f : positive -> option (list positive)) (arr : positive)
    (elems : list positive) (parts : list (list positive)) :
  Heap.read_array h arr = Some elems -> mapM f elems = Some parts ->
  Heap.flatMap h f arr = Some (Heap.alloc (Heap.OArray (concat parts)) h).
Proof. intros Ha Hp. unfold Heap.flatMap. rewrite Ha. simpl. by rewrite Hp. Qed.

Lemma heap_slice_eq h (start : Z) (arr : positive) (elems : list positive) :
  h !! arr = Some (Heap.OArray elems) ->
  Heap.slice h start arr
  = Some (Heap.alloc (Heap.OArray (JsArray.slice start elems)) h).
Proof. intros Ha. unfold Heap.slice, Heap.read_array. by rewrite Ha. Qed.

(** One call: it succeeds on a well-typed calendar, only adds objects to
    the store, and its result stands for the value of the pure selector. *)
Lemma heap_getRecentContributions_spec h (calendar : positive)
    (cal : ContributionCalendar) (days : option Z) :
  Heap.read_calendar h calendar = Some cal ->
  exists (r : positive) (h' : gmap positive Heap.object),
    Heap.getRecentContributions h calendar days = Some (r, h')
    /\ h ⊆ h'
    /\ h !! r = None
    /\ Heap.read_days h' r = Some (getRecentContributions cal days).
Proof.
  intros Hcal. unfold Heap.read_calendar in Hcal.
  unfold Heap.getRecentContributions.
  destruct (h !! calendar) as [o |] eqn:E; [| discriminate].
  destruct o as [| | total wl |]; try discriminate.
  destruct (Heap.read_array h wl) as [ws |] eqn:Hws; [| discriminate].
  simpl in Hcal.
  destruct (mapM (Heap.read_week h) ws) as [wks |] eqn:Hwks; [| discriminate].
  simpl in Hcal. injection Hcal as <-.
  destruct (flatten_weeks h ws wks Hwks) as (parts & Hparts & Hdays).
  rewrite (heap_flatMap_eq h _ wl ws parts Hws Hparts).
  destruct (alloc_spec (Heap.OArray (concat parts)) h) as (Hsub1 & Hnew1 & Hfresh1).
  destruct (Heap.alloc (Heap.OArray (concat parts)) h) as [allDays h1].
  cbn [fst snd] in Hsub1, Hnew1, Hfresh1. cbn [mbind option_bind].
  rewrite (heap_slice_eq h1 _ allDays _ Hnew1).
  set (elems := JsArray.slice (- default days_default days) (concat parts)).
  destruct (alloc_spec (Heap.OArray elems) h1) as (Hsub2 & Hnew2 & Hfresh2).
  destruct (Heap.alloc (Heap.OArray elems) h1) as [r h2].
  cbn [fst snd] in Hsub2, Hnew2, Hfresh2.
  exists r, h2. split; [reflexivity |].
  split; [by etrans |].
  split.
  - destruct (h !! r) as [o |] eqn:Hr; [| reflexivity].
    by rewrite (lookup_weaken _ _ _ _ Hr Hsub1) in Hfresh2.
  - unfold Heap.read_days, Heap.read_array. rewrite Hnew2. simpl.
    unfold getRecentContributions. simpl weeks. subst elems.
    apply mapM_slice.
    eapply mapM_weaken; [| exact Hdays].
    intros x y. apply read_day_weaken. by etrans.
Qed.

End HeapFacts.

(** C9: a call on a store holding a calendar succeeds, leaves every object
    of the store as it was (the new arrays are the only change), so the
    calendar reads back with the same total, weeks and days; the result
    stands for the value of [getRecentContributions] on the calendar's value,
    and a second call with the same arguments returns the same days.  The
    selector is not a computation of [M]: it emits no event. *)
Theorem getRecentContributions_pure
    (h : gmap positive Heap.object) (calendar : positive)
    (cal : ContributionCalendar) (days : option Z) :
  Heap.read_calendar h calendar = Some cal ->
  exists (r : positive) (h' : gmap positive Heap.object),
    Heap.getRecentContributions h calendar days = Some (r, h')
    /\ (forall l o, h !! l = Some o -> h' !! l = Some o)
    /\ Heap.read_calendar h' calendar = Some cal
    /\ Heap.read_days h' r = Some (getRecentContributions cal days)
    /\ exists (r2 : positive) (h2 : gmap positive Heap.object),
         Heap.getRecentContributions h' calendar days = Some (r2, h2)
         /\ Heap.read_calendar h2 calendar = Some cal
         /\ Heap.read_days h2 r2 = Some (getRecentContributions cal days)
         /\ Heap.read_days h2 r = Some (getRecentContributions cal days).
Proof.
  intros Hcal.
  destruct (heap_getRecentContributions_spec h calendar cal days Hcal)
    as (r & h' & Hcall & Hsub & _ & Hres).
  assert (Hcal' : Heap.read_calendar h' calendar = Some cal)
    by (by eapply read_calendar_weaken).
  destruct (heap_getRecentContributions_spec h' calendar cal days Hcal')
    as (r2 & h2 & Hcall2 & Hsub2 & _ & Hres2).
  exists r, h'. split; [exact Hcall |].
  split; [intros l o Hl; by eapply lookup_weaken |].
  split; [exact Hcal' |]. split; [exact Hres |].
  exists r2, h2. split; [exact Hcall2 |].
  split; [by eapply read_calendar_weaken |].
  split; [exact Hres2 | by eapply read_days_weaken].
Qed.

(** C9 at a store holding a calendar of two days, with day count 1. *)
Lemma getRecentContributions_pure_witness :
  Heap.read_calendar sample_heap 1 = Some two_day_calendar
  /\ exists (r : positive) (h' : gmap positive Heap.object),
       Heap.getRecentContributions sample_heap 1 (Some 1%Z) = Some (r, h')
       /\ Heap.read_calendar h' 1 = Some two_day_calendar
       /\ Heap.read_days h' r = Some [sample_day 2].
Proof.
  assert (H : Heap.read_calendar sample_heap 1 = Some two_day_calendar)
    by (vm_compute; reflexivity).
  split; [exact H |].
  destruct (getRecentContributions_pure sample_heap 1 two_day_calendar (Some 1%Z) H)
    as (r & h' & Hcall & _ & Hcal & Hres & _).
  exists r, h'. split; [exact Hcall |]. split; [exact Hcal | exact Hres].
Defined.

(** * Further properties of the code *)

(** ** Window selector *)

(** X1: for a day count N of at least 1, given or left to its default of
    365, the selector returns the last [min N total] days of the flattened
    calendar: the calendar without its first [total - N] days, and all of it
    when it holds no more than N days. *)
Theorem window_last_days (calendar : ContributionCalendar) (days : option Z) :
  (0 < default days_default days)%Z ->
  let N := Z.to_nat (default days_default days) in
  let allDays := JsArray.flatMap contributionDays (weeks calendar) in
  length (getRecentContributions calendar days) = Nat.min N (totalDays calendar)
  /\ getRecentContributions calendar days = drop (totalDays calendar - N) allDays
  /\ (totalDays calendar <= N -> getRecentContributions calendar days = allDays).
Proof.
  intros Hpos N allDays.
  assert (Heq : getRecentContributions calendar days
                = getRecentContributions calendar (Some (default days_default days))).
  { by destruct days. }
  destruct (getRecentContributions_positive calendar _ Hpos) as (Hlen & Hdrop & _ & Hall).
  rewrite Heq. split; [exact Hlen |]. split; [exact Hdrop |].
  intros Hle. apply Hall. unfold N in Hle. lia.
Qed.

(** X1 at a calendar of 91 days and the default day count. *)
Lemma window_last_days_witness :
  (0 < default days_default None)%Z
  /\ length (getRecentContributions (sample_calendar 13) None)
     = Nat.min 365 (totalDays (sample_calendar 13)).
Proof.
  assert (H : (0 < default days_default None)%Z) by (vm_compute; reflexivity).
  split; [exact H |].
  destruct (window_last_days (sample_calendar 13) None H) as [Hlen _].
  exact Hlen.
Defined.

(** X2: a negative day count -k does not select the last days: the selector
    returns the calendar without its first k days (nothing when k is the
    number of days or more). *)
Theorem window_negative_count (calendar : ContributionCalendar) (days : Z) :
  (days < 0)%Z ->
  let allDays := JsArray.flatMap contributionDays (weeks calendar) in
  getRecentContributions calendar (Some days) = drop (Z.to_nat (- days)) allDays
  /\ length (getRecentContributions calendar (Some days))
     = totalDays calendar - Z.to_nat (- days).
Proof.
  intros Hneg allDays.
  assert (Heq : getRecentContributions calendar (Some days)
                = drop (Z.to_nat (- days)) allDays).
  { unfold getRecentContributions, JsArray.slice. simpl default. fold allDays.
    destruct (Z.ltb_spec (- days) 0) as [Hlt | _]; [lia |].
    destruct (Z.le_gt_cases (- days) (Z.of_nat (length allDays))) as [Hle | Hgt].
    - by rewrite Z.min_l.
    - rewrite Z.min_r by lia. rewrite Nat2Z.id.
      rewrite !drop_ge; [reflexivity | lia | lia]. }
  split; [exact Heq |].
  rewrite Heq, length_drop. reflexivity.
Qed.

(** X2 at a calendar of two days and the day count -1. *)
Lemma window_negative_count_witness :
  (-1 < 0)%Z
  /\ getRecentContributions two_day_calendar (Some (-1)%Z) = [sample_day 2].
Proof.
  assert (H : (-1 < 0)%Z) by lia.
  split; [exact H |].
  destruct (window_negative_count two_day_calendar (-1) H) as [Heq _].
  exact Heq.
Defined.

(** X3: windows nest: for 1 <= m <= n the window of m days is the window of
    m days taken from the window of n days. *)
Theorem window_nested (calendar : ContributionCalendar) (m n : Z) :
  (0 < m)%Z -> (m <= n)%Z ->
  getRecentContributions calendar (Some m)
  = JsArray.slice (- m) (getRecentContributions calendar (Some n)).
Proof.
  intros Hm Hmn.
  destruct (getRecentContributions_positive calendar m Hm) as (_ & Hdm & _).
  destruct (getRecentContributions_positive calendar n ltac:(lia)) as (Hln & Hdn & _).
  rewrite slice_negative by exact Hm.
  rewrite Hln, Hdm, Hdn, drop_drop. f_equal. lia.
Qed.

(** X3 at a calendar of 91 days, with 7 days out of 30. *)
Lemma window_nested_witness :
  (0 < 7)%Z /\ (7 <= 30)%Z
  /\ getRecentContributions (sample_calendar 13) (Some 7%Z)
     = JsArray.slice (- 7) (getRecentContributions (sample_calendar 13) (Some 30%Z)).
Proof.
  assert (H1 : (0 < 7)%Z) by lia. assert (H2 : (7 <= 30)%Z) by lia.
  split; [exact H1 |]. split; [exact H2 |].
  exact (window_nested (sample_calendar 13) 7 30 H1 H2).
Defined.

(** X4: whatever the day count (positive, zero, negative or defaulted), the
    result is a trailing part of the flattened calendar: it never holds
    more days than the calendar, and every day it holds is a day of one of
    the calendar's weeks. *)
Theorem window_is_suffix (calendar : ContributionCalendar) (days : option Z) :
  let allDays := JsArray.flatMap contributionDays (weeks calendar) in
  (exists earlier, allDays = earlier ++ getRecentContributions calendar days)
  /\ length (getRecentContributions calendar days) <= totalDays calendar
  /\ (forall d, d ∈ getRecentContributions calendar days ->
        exists w, w ∈ weeks calendar /\ d ∈ contributionDays w).
Proof.
  intros allDays.
  destruct (slice_is_drop (- default days_default days) allDays) as [n Hn].
  assert (Heq : getRecentContributions calendar days = drop n allDays) by exact Hn.
  rewrite Heq. split; [| split].
  - exists (take n allDays). by rewrite take_drop.
  - rewrite length_drop. unfold totalDays. fold allDays. lia.
  - intros d Hd.
    assert (Hin : d ∈ allDays).
    { rewrite <- (take_drop n allDays). apply elem_of_app. by right. }
    unfold allDays, JsArray.flatMap in Hin.
    apply list_elem_of_In, in_concat in Hin as (ds & Hds & Hd').
    apply in_map_iff in Hds as (w & <- & Hw).
    exists w. split; by apply list_elem_of_In.
Qed.

(** ** The window selector over the store: what is new and what is shared *)

Section HeapSharing.

Implicit Types (h : gmap positive Heap.object).



End HeapSharing.



(** ** Remote activity fetcher: events and causes *)

(** The fetcher with a resolved credential, by what the transport does. *)
Lemma fetch_by_transport
    (env : ProcessEnv) (transport : Request -> Completion Response)
    (username : string) (token : option string) (c : string) :
  githubToken token env = Some c -> c <> "" ->
  let req := graphql_request username c in
  fetchGitHubContributions env transport username token
  = match transport req with
    | Throw e =>
        ([NetworkRequest req; ConsoleError (FailedToFetch username e)], Normal None)
    | Normal response =>
        if ok response then
          match json response with
          | Throw e =>
              ([NetworkRequest req; ConsoleError (FailedToFetch username e)],
               Normal None)
          | Normal result =>
              match data_user result with
              | None =>
                  ([NetworkRequest req; ConsoleWarn (UserNotFound username)],
                   Normal None)
              | Some u =>
                  ([NetworkRequest req],
                   Normal (Some (contributionCalendar (contributionsCollection u))))
              end
          end
        else
          ([NetworkRequest req;
            ConsoleError (FailedToFetch username
                            (ApiError (status response) (statusText response)))],
           Normal None)
    end.
Proof.
  intros Htok Hne req. unfold fetchGitHubContributions. rewrite Htok.
  assert (Ht : truthy (Some c) = true).
  { simpl. destruct (String.eqb_spec c ""); [contradiction | reflexivity]. }
  rewrite Ht. simpl negb. cbv iota. simpl default. fold req.
  unfold fetch, response_json, try_catch, bind, throw, ret, console_warn,
    console_error, emit.
  destruct (transport req) as [resp | e]; simpl; [| reflexivity].
  destruct (ok resp); simpl; [| reflexivity].
  destruct (json resp) as [result | e]; simpl; [| reflexivity].
  destruct (data_user result); reflexivity.
Qed.

(** X6: a call issues at most one request; when it yields a calendar it
    writes nothing to the console, and when it yields absence it writes
    exactly one console line: the missing-token warning without any request,
    or, after its request, the user-not-found warning or an error naming the
    account. *)
Theorem fetcher_logs_each_absence_once
    (env : ProcessEnv) (transport : Request -> Completion Response)
    (username : string) (token : option string) :
  match fetchGitHubContributions env transport username token with
  | (evs, Normal (Some _)) =>
      exists c, evs = [NetworkRequest (graphql_request username c)]
  | (evs, Normal None) =>
      evs = [ConsoleWarn NoTokenConfigured]
      \/ (exists c, evs = [NetworkRequest (graphql_request username c);
                           ConsoleWarn (UserNotFound username)])
      \/ (exists c e, evs = [NetworkRequest (graphql_request username c);
                             ConsoleError (FailedToFetch username e)])
  | (_, Throw _) => False
  end.
Proof.
  pose proof (githubToken_first_resolved token env) as H.
  destruct (first_resolved _) as [c |].
  - destruct H as [Htok Hne].
    rewrite (fetch_by_transport env transport username token c Htok Hne).
    cbv zeta.
    destruct (transport _) as [resp | e]; [| right; right; eauto].
    destruct (ok resp); [| right; right; eauto].
    destruct (json resp) as [result | e]; [| right; right; eauto].
    destruct (data_user result); [eauto | right; left; eauto].
  - rewrite (fetchGitHubContributions_unresolved _ _ _ _ H). by left.
Qed.

(** X7: a non-empty explicit token makes the call independent of the
    process environment. *)
Theorem fetcher_explicit_token_ignores_env
    (env1 env2 : ProcessEnv) (transport : Request -> Completion Response)
    (username t : string) :
  t <> "" ->
  fetchGitHubContributions env1 transport username (Some t)
  = fetchGitHubContributions env2 transport username (Some t).
Proof.
  intros Hne.
  assert (Htok : forall env, githubToken (Some t) env = Some t).
  { intros env.
    assert (Ht : truthy (Some t) = true).
    { simpl. destruct (String.eqb_spec t ""); [contradiction | reflexivity]. }
    unfold githubToken, js_or. rewrite Ht. cbv iota. by rewrite Ht. }
  rewrite (fetch_by_transport env1 transport username (Some t) t (Htok env1) Hne).
  rewrite (fetch_by_transport env2 transport username (Some t) t (Htok env2) Hne).
  reflexivity.
Qed.

(** X7 at the token good, without and with a personal fallback. *)
Lemma fetcher_explicit_token_ignores_env_witness :
  "good" <> ""
  /\ fetchGitHubContributions no_env transport_one_credential "octocat" (Some "good")
     = fetchGitHubContributions env_personal transport_one_credential "octocat"
         (Some "good").
Proof.
  assert (H : "good" <> "") by discriminate.
  split; [exact H |].
  exact (fetcher_explicit_token_ignores_env no_env env_personal
           transport_one_credential "octocat" "good" H).
Defined.

(** X8: when the response is not ok, the call yields absence after logging
    one error that carries the status and the status text; the body of the
    response plays no part. *)
Theorem fetcher_reports_status
    (env : ProcessEnv) (transport : Request -> Completion Response)
    (username : string) (token : option string) (c : string)
    (response : Response) :
  first_resolved [token; GITHUB_TOKEN_PERSONAL env; GITHUB_TOKEN env] = Some c ->
  transport (graphql_request username c) = Normal response ->
  ok response = false ->
  fetchGitHubContributions env transport username token
  = ([NetworkRequest (graphql_request username c);
      ConsoleError (FailedToFetch username
                      (ApiError (status response) (statusText response)))],
     Normal None).
Proof.
  intros Hc Hresp Hok.
  pose proof (githubToken_first_resolved token env) as H. rewrite Hc in H.
  destruct H as [Htok Hne].
  rewrite (fetch_by_transport env transport username token c Htok Hne).
  cbv zeta. by rewrite Hresp, Hok.
Qed.

(** X8 at a transport that answers 401 to the token bad. *)
Lemma fetcher_reports_status_witness :
  fetchGitHubContributions no_env transport_one_credential "hubot" (Some "bad")
  = ([NetworkRequest (graphql_request "hubot" "bad");
      ConsoleError (FailedToFetch "hubot" (ApiError 401 "Unauthorized"))],
     Normal None).
Proof.
  exact (fetcher_reports_status no_env transport_one_credential "hubot"
           (Some "bad") "bad" unauthorized_response eq_refl eq_refl eq_refl).
Defined.

(** X9: every request a call issues is a POST to the GraphQL endpoint that
    carries the username as its variable and a non-empty credential as its
    bearer, and a call issues at most one. *)
Theorem fetcher_requests_well_formed
    (env : ProcessEnv) (transport : Request -> Completion Response)
    (username : string) (token : option string) :
  length (requests (fetchGitHubContributions env transport username token)) <= 1
  /\ Forall (fun r =>
       url r = "https://api.github.com/graphql"
       /\ method r = "POST"
       /\ variables_username (body r) = username
       /\ exists c, c <> "" /\ authorization r = "Bearer " +:+ c)
     (requests (fetchGitHubContributions env transport username token)).
Proof.
  pose proof (fetchGitHubContributions_by_candidates env transport username token) as H.
  pose proof (githubToken_first_resolved token env) as Hc.
  destruct (first_resolved _) as [c |].
  - destruct H as (_ & -> & _). destruct Hc as [_ Hne].
    split; [simpl; lia |]. repeat constructor. by exists c.
  - destruct H as [_ ->]. split; [simpl; lia | constructor].
Qed.

(** ** Aggregator: any account list *)

Lemma keys_perm {V : Type} (o : JsObject.t V) : JsObject.keys o ≡ₚ map fst o.
Proof. unfold JsObject.keys. apply fmap_Permutation, entries_perm. Qed.

Lemma getOwn_None {V : Type} (u : string) (o : JsObject.t V) :
  u ∉ map fst o -> JsObject.getOwn u o = None.
Proof.
  induction o as [| [k v] o IH]; simpl; intros Hu; [reflexivity |].
  apply not_elem_of_cons in Hu as [Hne Hu].
  destruct (String.eqb_spec u k); [contradiction | by apply IH].
Qed.

Lemma define_keys_elem {V : Type} (k u : string) (v : V) (o : JsObject.t V) :
  u ∈ map fst (JsObject.define k v o) <-> u = k \/ u ∈ map fst o.
Proof.
  induction o as [| [k' v'] o IH]; simpl.
  - rewrite list_elem_of_singleton. split; [by left | intros [H | H]; [done |]].
    by apply elem_of_nil in H.
  - destruct (String.eqb_spec k k') as [-> | Hne]; simpl.
    + rewrite !elem_of_cons. tauto.
    + rewrite !elem_of_cons, IH. tauto.
Qed.

Lemma define_keys_NoDup {V : Type} (k : string) (v : V) (o : JsObject.t V) :
  NoDup (map fst o) -> NoDup (map fst (JsObject.define k v o)).
Proof.
  induction o as [| [k' v'] o IH]; simpl; intros Hnd.
  - apply NoDup_singleton.
  - apply NoDup_cons in Hnd as [Hk' Hnd].
    destruct (String.eqb_spec k k') as [-> | Hne]; simpl.
    + by apply NoDup_cons.
    + apply NoDup_cons. split; [| by apply IH].
      rewrite define_keys_elem. intros [-> | H]; [done | by apply Hk'].
Qed.

Lemma set_keys_elem {V : Type} (k u : string) (v : V) (o : JsObject.t V) :
  u ∈ map fst (JsObject.set k v o)
  <-> (u = k /\ k <> "__proto__") \/ u ∈ map fst o.
Proof.
  unfold JsObject.set. destruct (String.eqb_spec k "__proto__") as [-> | Hne].
  - split; [by right | intros [[_ H] | H]; [done | exact H]].
  - rewrite define_keys_elem. tauto.
Qed.

Lemma set_keys_NoDup {V : Type} (k : string) (v : V) (o : JsObject.t V) :
  NoDup (map fst o) -> NoDup (map fst (JsObject.set k v o)).
Proof.
  unfold JsObject.set. destruct (String.eqb k "__proto__"); [done |].
  apply define_keys_NoDup.
Qed.

(** ** Interleaved events *)

Lemma interleave_perm (schedule : list nat) :
  forall pending : list (list Event),
  interleave schedule pending ≡ₚ concat pending.
Proof.
  induction schedule as [| i schedule IH]; intros pending; [reflexivity |].
  cbn [interleave].
  destruct (pending !! i) as [[| ev evs] |] eqn:Hi; [apply IH | | apply IH].
  rewrite IH.
  rewrite <- (take_drop_middle pending i (ev :: evs) Hi) at 2.
  rewrite insert_take_drop by (by eapply lookup_lt_Some).
  rewrite !concat_app. simpl.
  by rewrite Permutation_middle.
Qed.

Lemma sublist_concat (pending : list (list Event)) (i : nat) (l : list Event) :
  pending !! i = Some l -> sublist l (concat pending).
Proof.
  intros Hi. rewrite <- (take_drop_middle pending i l Hi), concat_app. simpl.
  apply sublist_inserts_l, sublist_inserts_r. reflexivity.
Qed.

(** Interleaving keeps the events of each computation in their order. *)
Lemma interleave_sublist (schedule : list nat) :
  forall (pending : list (list Event)) (i : nat) (l : list Event),
  pending !! i = Some l -> sublist l (interleave schedule pending).
Proof.
  induction schedule as [| j schedule IH]; intros pending i l Hi.
  - by eapply sublist_concat.
  - cbn [interleave].
    destruct (pending !! j) as [[| ev evs] |] eqn:Hj; [by eapply IH | | by eapply IH].
    destruct (decide (i = j)) as [-> | Hne].
    + rewrite Hj in Hi. injection Hi as <-.
      apply sublist_skip. apply (IH _ j).
      apply list_lookup_insert_eq. by eapply lookup_lt_Some.
    + apply sublist_cons. apply (IH _ i).
      by rewrite list_lookup_insert_ne.
Qed.

Section AggregatorAnyList.

Variable fetcher : string -> option string -> M (option ContributionCalendar).

Lemma fold_record_keys (l : list Account) :
  forall (o : JsObject.t Z) (u : string),
  u ∈ map fst (fold_left (record_account fetcher) l o)
  <-> u ∈ map fst o \/ (u ∈ map username l /\ u <> "__proto__").
Proof.
  induction l as [| a l IH]; intros o u; simpl.
  - split; [by left | intros [H | [H _]]; [done | by apply elem_of_nil in H]].
  - rewrite IH. unfold record_account. rewrite set_keys_elem, elem_of_cons.
    split.
    + intros [[[-> Hp] | H] | H]; [right; split; [by left | done] | by left |].
      right. split; [right |]; tauto.
    + intros [H | [[-> | H] Hp]]; [left; by right | left; left; done |].
      right. done.
Qed.

Lemma fold_record_NoDup (l : list Account) :
  forall o : JsObject.t Z,
  NoDup (map fst o) -> NoDup (map fst (fold_left (record_account fetcher) l o)).
Proof.
  induction l as [| a l IH]; intros o Hnd; simpl; [exact Hnd |].
  apply IH. by apply set_keys_NoDup.
Qed.

Lemma fold_record_getOwn_other (l : list Account) :
  forall (o : JsObject.t Z) (u : string),
  u ∉ map username l ->
  JsObject.getOwn u (fold_left (record_account fetcher) l o) = JsObject.getOwn u o.
Proof.
  induction l as [| a l IH]; intros o u Hu; simpl; [reflexivity |].
  simpl in Hu. apply not_elem_of_cons in Hu as [Hne Hu].
  rewrite IH by exact Hu. unfold record_account. by rewrite getOwn_set_ne.
Qed.

End AggregatorAnyList.

(** X10: for every fetcher, every account list and every order of arrival
    of the responses, repeated usernames and faulting fetches included, the
    aggregator completes normally; its combined total is the sum over the
    accounts of the total of the calendar fetched, an absent or faulted
    fetch adding 0.  Its events are those of the fetches, none lost and none
    added: first what each fetch does before its first suspension, in
    account order, then what the fetches do after it, each fetch's events in
    their own order. *)
Theorem aggregator_never_throws
    (fetcher : string -> option string -> M (option ContributionCalendar))
    (schedule : list nat) (accounts : list Account) :
  exists res later,
    outcome (aggregateContributionsWith fetcher schedule accounts) = Normal res
    /\ Aggregate.totalContributions res
       = sumZ (map (fun a =>
                 match outcome (fetcher (username a) (token a)) with
                 | Normal (Some calendar) => totalContributions calendar
                 | _ => 0%Z
                 end) accounts)
    /\ events (aggregateContributionsWith fetcher schedule accounts)
       = concat (map (fun a =>
                   beforeFirstAwait (events (fetcher (username a) (token a))))
                   accounts)
         ++ later
    /\ later ≡ₚ concat (map (fun a =>
                         afterFirstAwait (events (fetcher (username a) (token a))))
                         accounts)
    /\ (forall a, a ∈ accounts ->
          sublist (afterFirstAwait (events (fetcher (username a) (token a)))) later)
    /\ events (aggregateContributionsWith fetcher schedule accounts)
       ≡ₚ concat (map (fun a => events (fetcher (username a) (token a))) accounts).
Proof.
  rewrite aggregateContributionsWith_spec. eexists _, _.
  split; [reflexivity |]. split; [reflexivity |]. split; [reflexivity |].
  split; [apply interleave_perm |]. split.
  - intros a Ha. apply list_elem_of_lookup in Ha as [i Hi].
    apply (interleave_sublist _ _ i). by rewrite list_lookup_fmap, Hi.
  - unfold events at 1. cbn [fst]. rewrite interleave_perm.
    induction accounts as [| a accounts IH]; [reflexivity |].
    cbn [map concat]. rewrite <- (before_after_await (events (fetcher _ _))) at 3.
    rewrite <- IH, <- !app_assoc. f_equiv.
    rewrite !app_assoc. f_equiv. apply Permutation_app_comm.
Qed.

(** X11: the mapping keeps, for a username other than [__proto__], what the
    last account of that username contributed: a later account overwrites an
    earlier one. *)
Theorem aggregator_last_account_wins
    (fetcher : string -> option string -> M (option ContributionCalendar))
    (schedule : list nat) (earlier later : list Account) (a : Account) :
  username a ∉ map username later ->
  username a <> "__proto__" ->
  exists res,
    outcome (aggregateContributionsWith fetcher schedule (earlier ++ a :: later))
    = Normal res
    /\ JsObject.get (username a) (Aggregate.byAccount res)
       = JsObject.Own (contribution fetcher a).
Proof.
  intros Hlast Hproto. rewrite aggregateContributionsWith_spec.
  eexists. split; [reflexivity |]. cbn [Aggregate.byAccount].
  rewrite fold_left_app. cbn [fold_left].
  apply get_own.
  rewrite fold_record_getOwn_other by exact Hlast.
  unfold record_account at 1. rewrite set_other by exact Hproto.
  apply getOwn_define_eq.
Qed.

(** X11 at the username octocat twice: the first fetch yields a calendar of
    total 120, the second is refused. *)
Lemma aggregator_last_account_wins_witness :
  exists res,
    outcome (aggregateContributions no_env transport_one_credential []
               repeated_accounts)
    = Normal res
    /\ JsObject.get "octocat" (Aggregate.byAccount res) = JsObject.Own 0%Z.
Proof.
  assert (H : "octocat" ∉ map username ([] : list Account)) by apply not_elem_of_nil.
  assert (Hp : "octocat" <> "__proto__") by discriminate.
  exact (aggregator_last_account_wins
           (fetchGitHubContributions no_env transport_one_credential) []
           [ {| username := "octocat"; token := Some "good" |} ] []
           {| username := "octocat"; token := Some "bad" |} H Hp).
Defined.

(** X12: the keys of the mapping are the usernames of the input other than
    [__proto__], each once: no key is repeated, every other input username
    is a key, and [__proto__] never is.  Reading a key that is not an input
    username gives what [Object.prototype] holds under it, if anything, and
    undefined otherwise.  The mapping has at most as many entries as there
    are accounts. *)
Theorem aggregator_keys_are_usernames
    (fetcher : string -> option string -> M (option ContributionCalendar))
    (schedule : list nat) (accounts : list Account) :
  exists res,
    outcome (aggregateContributionsWith fetcher schedule accounts) = Normal res
    /\ NoDup (JsObject.keys (Aggregate.byAccount res))
    /\ (forall u, u ∈ JsObject.keys (Aggregate.byAccount res)
                  <-> u ∈ map username accounts /\ u <> "__proto__")
    /\ (forall u, u ∉ map username accounts ->
                  JsObject.get u (Aggregate.byAccount res)
                  = if bool_decide (u ∈ JsObject.prototype_keys)
                    then JsObject.Inherited u else JsObject.Undefined)
    /\ JsObject.get "__proto__" (Aggregate.byAccount res)
       = JsObject.Inherited "__proto__"
    /\ length (JsObject.keys (Aggregate.byAccount res)) <= length accounts.
Proof.
  rewrite aggregateContributionsWith_spec.
  eexists. split; [reflexivity |]. cbn [Aggregate.byAccount].
  set (o := fold_left (record_account fetcher) accounts JsObject.empty).
  assert (Hnd : NoDup (map fst o)).
  { apply fold_record_NoDup. constructor. }
  assert (Hel : forall u, u ∈ map fst o
                          <-> u ∈ map username accounts /\ u <> "__proto__").
  { intros u. unfold o. rewrite fold_record_keys. simpl.
    split; [intros [H | H]; [by apply elem_of_nil in H | done] | by right]. }
  assert (Hnd' : NoDup (JsObject.keys o)) by (by rewrite keys_perm).
  assert (Hel' : forall u, u ∈ JsObject.keys o
                           <-> u ∈ map username accounts /\ u <> "__proto__").
  { intros u. by rewrite keys_perm. }
  split; [exact Hnd' |]. split; [exact Hel' |]. split; [| split].
  - intros u Hu. unfold JsObject.get, o.
    by rewrite (fold_record_getOwn_other fetcher).
  - unfold JsObject.get. rewrite getOwn_None; [reflexivity |].
    rewrite Hel. tauto.
  - rewrite <- (length_map username accounts).
    apply submseteq_length, NoDup_submseteq; [exact Hnd' |].
    intros u Hu. by apply Hel'.
Qed.

Lemma Forall_filter_keep {A : Type} (P Q : A -> Prop)
    `{!forall x, Decision (P x)} (l : list A) :
  Forall Q l -> Forall Q (filter P l).
Proof.
  rewrite !Forall_forall. intros HQ x Hx.
  apply list_elem_of_filter in Hx as [_ Hx]. by apply HQ.
Qed.

Lemma NoDup_map_filter {A B : Type} (f : A -> B) (P : A -> Prop)
    `{!forall x, Decision (P x)} (l : list A) :
  NoDup (map f l) -> NoDup (map f (filter P l)).
Proof.
  induction l as [| x l IH]; intros Hnd; [constructor |].
  simpl in Hnd. apply NoDup_cons in Hnd as [Hx Hnd].
  rewrite filter_cons. destruct (decide (P x)); [| by apply IH].
  simpl. apply NoDup_cons. split; [| by apply IH].
  intros Hin. apply Hx.
  apply list_elem_of_fmap in Hin as (y & -> & Hy).
  apply list_elem_of_filter in Hy as [_ Hy].
  apply list_elem_of_fmap. eauto.
Qed.

Lemma entries_creation_order {V : Type} (o : JsObject.t V) :
  Forall (fun k => JsObject.arrayIndex k = None) (map fst o) ->
  JsObject.entries o = o.
Proof.
  unfold JsObject.entries.
  induction o as [| [k v] o IH]; simpl; intros H; [reflexivity |].
  apply Forall_cons in H as [Hk H]. rewrite Hk.
  specialize (IH H).
  destruct (JsObject.indexProperties o) as [| p ps] eqn:Hidx.
  - simpl in *. by rewrite IH.
  - exfalso. clear -H Hidx. revert p ps Hidx.
    induction o as [| [k' v'] o IHo]; simpl; intros p ps Hidx; [discriminate |].
    simpl in H. apply Forall_cons in H as [Hk H]. rewrite Hk in Hidx.
    by eapply IHo.
Qed.

(** X13: when the usernames are pairwise distinct and none of them is an
    array index, the entries of the mapping are enumerated in the order of
    the accounts, each account with what its fetch contributed, an account
    named [__proto__] being left out. *)
Theorem aggregator_entries_in_input_order
    (fetcher : string -> option string -> M (option ContributionCalendar))
    (schedule : list nat) (accounts : list Account) :
  NoDup (map username accounts) ->
  Forall (fun a => JsObject.arrayIndex (username a) = None) accounts ->
  exists res,
    outcome (aggregateContributionsWith fetcher schedule accounts) = Normal res
    /\ JsObject.entries (Aggregate.byAccount res)
       = map (fun a => (username a, contribution fetcher a))
           (filter (fun a => username a <> "__proto__") accounts)
    /\ JsObject.keys (Aggregate.byAccount res)
       = map username (filter (fun a => username a <> "__proto__") accounts).
Proof.
  intros Hnd Hidx. rewrite aggregateContributionsWith_spec.
  eexists. split; [reflexivity |]. cbn [Aggregate.byAccount].
  rewrite fold_record_account_distinct by exact Hnd.
  unfold JsObject.empty. rewrite app_nil_l.
  set (kept := filter (fun a => username a <> "__proto__") accounts).
  assert (Hent : JsObject.entries
                   (map (fun a => (username a, contribution fetcher a)) kept)
                 = map (fun a => (username a, contribution fetcher a)) kept).
  { apply entries_creation_order. rewrite map_map. simpl.
    apply Forall_map. by apply Forall_filter_keep. }
  split; [exact Hent |].
  unfold JsObject.keys. rewrite Hent, map_map. reflexivity.
Qed.

(** X13 at the accounts octocat, __proto__ and hubot. *)
Lemma aggregator_entries_in_input_order_witness :
  exists res,
    outcome (aggregateContributions no_env transport_one_credential [2; 1]
               accounts_with_proto)
    = Normal res
    /\ JsObject.entries (Aggregate.byAccount res)
       = [("octocat", 120%Z); ("hubot", 0%Z)].
Proof.
  assert (Hnd : NoDup (map username accounts_with_proto)).
  { apply (bool_decide_unpack _). vm_compute. exact I. }
  assert (Hidx : Forall (fun a => JsObject.arrayIndex (username a) = None)
                   accounts_with_proto).
  { repeat constructor. }
  destruct (aggregator_entries_in_input_order
              (fetchGitHubContributions no_env transport_one_credential) [2; 1]
              accounts_with_proto Hnd Hidx) as (res & Hres & Hent & _).
  exists res. split; [exact Hres | exact Hent].
Defined.

(** X14: the order of the accounts does not matter to the numbers: two
    account lists that are permutations of each other give, whatever the
    order in which the responses arrive, the same combined total, and with
    pairwise distinct usernames the same value under every key. *)
Theorem aggregator_order_irrelevant
    (fetcher : string -> option string -> M (option ContributionCalendar))
    (schedule schedule' : list nat) (accounts accounts' : list Account) :
  accounts ≡ₚ accounts' ->
  exists res res',
    outcome (aggregateContributionsWith fetcher schedule accounts) = Normal res
    /\ outcome (aggregateContributionsWith fetcher schedule' accounts') = Normal res'
    /\ Aggregate.totalContributions res = Aggregate.totalContributions res'
    /\ (NoDup (map username accounts) ->
        forall u, JsObject.get u (Aggregate.byAccount res)
                  = JsObject.get u (Aggregate.byAccount res')).
Proof.
  intros Hperm. rewrite !aggregateContributionsWith_spec.
  eexists _, _. split; [reflexivity |]. split; [reflexivity |].
  cbn [Aggregate.totalContributions Aggregate.byAccount]. split.
  - apply sumZ_perm. by apply fmap_Permutation.
  - intros Hnd u.
    assert (Hnd' : NoDup (map username accounts')).
    { assert (Hp : map username accounts ≡ₚ map username accounts')
        by (by apply fmap_Permutation).
      by rewrite <- Hp. }
    rewrite !fold_record_account_distinct by assumption.
    unfold JsObject.empty. rewrite !app_nil_l.
    set (P := fun a : Account => username a <> "__proto__").
    assert (Hkept : filter P accounts ≡ₚ filter P accounts')
      by (by apply filter_Permutation).
    assert (Hk : NoDup (map username (filter P accounts)))
      by (by apply NoDup_map_filter).
    assert (Hk' : NoDup (map username (filter P accounts')))
      by (by apply NoDup_map_filter).
    unfold JsObject.get.
    destruct (decide (u ∈ map username (filter P accounts))) as [Hin | Hout].
    + apply list_elem_of_fmap in Hin as (a & -> & Ha).
      rewrite (getOwn_of_distinct fetcher _ a Hk Ha).
      rewrite (getOwn_of_distinct fetcher _ a Hk'); [reflexivity |].
      by rewrite <- Hkept.
    + rewrite !getOwn_None; [reflexivity | |]; rewrite map_map; simpl.
      * intros H. apply Hout.
        apply list_elem_of_fmap in H as (a & -> & Ha).
        apply list_elem_of_fmap. exists a. split; [done |]. by rewrite Hkept.
      * exact Hout.
Qed.

(** X14 at the accounts octocat and hubot, and the same in reverse. *)
Lemma aggregator_order_irrelevant_witness :
  exists res res',
    outcome (aggregateContributions no_env transport_one_credential [] two_accounts)
    = Normal res
    /\ outcome (aggregateContributions no_env transport_one_credential [1; 0]
                  (reverse two_accounts)) = Normal res'
    /\ Aggregate.totalContributions res = Aggregate.totalContributions res'.
Proof.
  assert (Hperm : two_accounts ≡ₚ reverse two_accounts)
    by (symmetry; apply reverse_Permutation).
  destruct (aggregator_order_irrelevant
              (fetchGitHubContributions no_env transport_one_credential)
              [] [1; 0] two_accounts (reverse two_accounts) Hperm)
    as (res & res' & H1 & H2 & H3 & _).
  exists res, res'. split; [exact H1 |]. split; [exact H2 | exact H3].
Defined.

Lemma omap_length_le {A B : Type} (f : A -> option B) (l : list A) :
  length (omap f l) <= length l.
Proof.
  induction l as [| x l IH]; [reflexivity |].
  cbn [omap list_omap]. destruct (f x); simpl; fold (omap f l); lia.
Qed.

(** The requests of a fetch and of an aggregation, by the credentials that
    resolve. *)
Lemma fetch_requests (env : ProcessEnv) (transport : Request -> Completion Response)
    (username : string) (token : option string) :
  requests (fetchGitHubContributions env transport username token)
  = match first_resolved [token; GITHUB_TOKEN_PERSONAL env; GITHUB_TOKEN env] with
    | Some c => [graphql_request username c]
    | None => []
    end.
Proof.
  pose proof (fetchGitHubContributions_by_candidates env transport username token) as H.
  destruct (first_resolved _) as [c |].
  - by destruct H as (_ & -> & _).
  - by destruct H as [_ ->].
Qed.

Lemma fetch_requests_length (env : ProcessEnv)
    (transport : Request -> Completion Response)
    (username : string) (token : option string) :
  length (requests (fetchGitHubContributions env transport username token)) <= 1.
Proof. rewrite fetch_requests. destruct (first_resolved _); simpl; lia. Qed.

(** A fetch issues its request, if any, before its first suspension, and
    none after. *)
Lemma fetch_before_after (env : ProcessEnv)
    (transport : Request -> Completion Response)
    (username : string) (token : option string) :
  omap (fun ev => match ev with NetworkRequest r => Some r | _ => None end)
    (beforeFirstAwait (events (fetchGitHubContributions env transport username token)))
  = match first_resolved [token; GITHUB_TOKEN_PERSONAL env; GITHUB_TOKEN env] with
    | Some c => [graphql_request username c]
    | None => []
    end
  /\ Forall (fun ev => forall q, ev <> NetworkRequest q)
       (afterFirstAwait (events (fetchGitHubContributions env transport username token))).
Proof.
  pose proof (githubToken_first_resolved token env) as H.
  destruct (first_resolved _) as [c |].
  - destruct H as [Htok Hne].
    destruct (fetchGitHubContributions_resolved env transport username token c Htok Hne)
      as (evs & r & -> & Hevs).
    split; [reflexivity | exact Hevs].
  - rewrite (fetchGitHubContributions_unresolved _ _ _ _ H).
    split; [reflexivity | constructor].
Qed.

Lemma aggregate_requests_eq (env : ProcessEnv)
    (transport : Request -> Completion Response)
    (schedule : list nat) (accounts : list Account) :
  requests (aggregateContributions env transport schedule accounts)
  = omap (fun a =>
            match first_resolved
                    [token a; GITHUB_TOKEN_PERSONAL env; GITHUB_TOKEN env] with
            | Some c => Some (graphql_request (username a) c)
            | None => None
            end) accounts.
Proof.
  unfold aggregateContributions. rewrite aggregateContributionsWith_spec.
  unfold requests. unfold events at 1. cbn [fst]. rewrite omap_app.
  rewrite (omap_no_request (interleave _ _)).
  - rewrite app_nil_r.
    induction accounts as [| a accounts IH]; [reflexivity |].
    cbn [map concat]. rewrite omap_app, IH.
    destruct (fetch_before_after env transport (username a) (token a)) as [-> _].
    cbn [omap list_omap].
    destruct (first_resolved _) as [c |]; reflexivity.
  - rewrite interleave_perm. apply Forall_concat, Forall_map, Forall_forall.
    intros a _. apply fetch_before_after.
Qed.

Lemma aggregator_requests_length (env : ProcessEnv)
    (transport : Request -> Completion Response)
    (schedule : list nat) (accounts : list Account) :
  length (requests (aggregateContributions env transport schedule accounts))
  <= length accounts.
Proof. rewrite aggregate_requests_eq. apply omap_length_le. Qed.

(** X15: whatever the order in which the responses arrive, the aggregator
    issues one request for each account whose credential resolves, in
    account order and with that account's own credential, and none for an
    account without a credential. *)
Theorem aggregator_requests
    (env : ProcessEnv) (transport : Request -> Completion Response)
    (schedule : list nat) (accounts : list Account) :
  requests (aggregateContributions env transport schedule accounts)
  = omap (fun a =>
            match first_resolved
                    [token a; GITHUB_TOKEN_PERSONAL env; GITHUB_TOKEN env] with
            | Some c => Some (graphql_request (username a) c)
            | None => None
            end) accounts
  /\ length (requests (aggregateContributions env transport schedule accounts))
     <= length accounts.
Proof.
  split; [apply aggregate_requests_eq | apply aggregator_requests_length].
Qed.

(** ** Contribution graph component *)

Lemma weeks_of_bounds (n : nat) : n <= 7 * weeks_of n < n + 7.
Proof.
  unfold weeks_of.
  pose proof (Nat.div_mod_eq (n + 6) 7) as Hdm.
  pose proof (Nat.mod_upper_bound (n + 6) 7 ltac:(lia)) as Hlt.
  lia.
Qed.

(** The component on a list with a first account. *)
Lemma component_cons (env : ProcessEnv) (transport : Request -> Completion Response)
    (schedule : list nat)
    (primary : Account) (others : list Account) (days : option Z) :
  exists res,
    outcome (aggregateContributions env transport schedule (primary :: others)) = Normal res
    /\ GitHubContributions env transport schedule (primary :: others) days
       = (events (aggregateContributions env transport schedule (primary :: others))
          ++ events (fetchGitHubContributions env transport
                       (username primary) (token primary)),
          Normal
            match outcome (fetchGitHubContributions env transport
                             (username primary) (token primary)) with
            | Normal (Some calendar) =>
                let recentDays :=
                  getRecentContributions calendar
                    (Some (default days_display_default days)) in
                ContributionGraph
                  (Aggregate.totalContributions res)
                  (if decide (1 < length (primary :: others))
                   then Some (JsObject.entries (Aggregate.byAccount res))
                   else None)
                  (weeks_of (length recentDays))
                  (map day_cell recentDays)
            | _ => UnableToLoad
            end).
Proof.
  assert (Hagg : exists evsA res,
            aggregateContributions env transport schedule (primary :: others)
            = (evsA, Normal res)).
  { unfold aggregateContributions. rewrite aggregateContributionsWith_spec. eauto. }
  destruct Hagg as (evsA & res & Hagg).
  exists res. unfold GitHubContributions. rewrite Hagg.
  split; [reflexivity |].
  pose proof (fetchGitHubContributions_outcome env transport
                (username primary) (token primary)) as Hout.
  cbn [lookup list_lookup]. unfold bind, ret, events, outcome in *.
  cbn [fst snd] in *.
  destruct (fetchGitHubContributions env transport (username primary) (token primary))
    as [evs [r | e]]; cbn [fst snd] in *; [clear Hout | discriminate Hout].
  destruct r; by rewrite app_nil_r.
Qed.

(** X16: the component renders exactly when it is given at least one
    account.  On an empty list, after the aggregation, which issues no
    request, reading the first account's username throws a TypeError.  With
    a first account it always renders, and it renders the unable-to-load
    notice exactly when the fetch of the first account yields absence,
    whatever the other accounts yield. *)
Theorem component_notice_iff_primary_absent
    (env : ProcessEnv) (transport : Request -> Completion Response)
    (schedule : list nat) (accounts : list Account) (days : option Z) :
  match accounts with
  | [] =>
      GitHubContributions env transport schedule accounts days
      = ([], Throw (TypeError "username"))
  | primary :: _ =>
      (exists view,
         outcome (GitHubContributions env transport schedule accounts days) = Normal view)
      /\ (outcome (GitHubContributions env transport schedule accounts days)
          = Normal UnableToLoad
          <-> outcome (fetchGitHubContributions env transport
                         (username primary) (token primary)) = Normal None)
  end.
Proof.
  destruct accounts as [| primary others].
  { unfold GitHubContributions, aggregateContributions.
    rewrite aggregateContributionsWith_spec. simpl.
    by rewrite interleave_nil. }
  destruct (component_cons env transport schedule primary others days) as (res & _ & Heq).
  rewrite Heq. unfold outcome at 1 2. cbn [snd].
  split; [eexists; reflexivity |].
  pose proof (fetchGitHubContributions_outcome env transport
                (username primary) (token primary)) as Hout.
  destruct (outcome (fetchGitHubContributions env transport
                       (username primary) (token primary))) as [[cal |] | e].
  - split; intros H; discriminate.
  - split; reflexivity.
  - discriminate.
Qed.

(** X17: the component fetches the first account a second time: its
    requests are those of the aggregation followed by the request for the
    first account, at most one more than there are accounts. *)
Theorem component_requests
    (env : ProcessEnv) (transport : Request -> Completion Response)
    (schedule : list nat)
    (primary : Account) (others : list Account) (days : option Z) :
  requests (GitHubContributions env transport schedule (primary :: others) days)
  = requests (aggregateContributions env transport schedule (primary :: others))
    ++ requests (fetchGitHubContributions env transport
                   (username primary) (token primary))
  /\ length (requests (GitHubContributions env transport schedule (primary :: others) days))
     <= length (primary :: others) + 1.
Proof.
  destruct (component_cons env transport schedule primary others days) as (res & _ & Heq).
  assert (Hreq : requests (GitHubContributions env transport schedule (primary :: others) days)
    = requests (aggregateContributions env transport schedule (primary :: others))
      ++ requests (fetchGitHubContributions env transport
                     (username primary) (token primary))).
  { rewrite Heq. unfold requests, events. cbn [fst]. apply omap_app. }
  split; [exact Hreq |].
  rewrite Hreq, length_app.
  pose proof (aggregator_requests_length env transport schedule (primary :: others)) as Hagg.
  pose proof (fetch_requests_length env transport (username primary) (token primary))
    as Hone.
  lia.
Qed.

Lemma window_suffix_length (calendar : ContributionCalendar) (days : option Z) :
  length (getRecentContributions calendar days) <= totalDays calendar.
Proof.
  destruct (slice_is_drop (- default days_default days)
              (JsArray.flatMap contributionDays (weeks calendar))) as [n Hn].
  unfold getRecentContributions, totalDays. rewrite Hn, length_drop. lia.
Qed.

(** X18: when the fetch of the first account yields a calendar, the
    component renders the graph: one cell for each day of the window of the
    requested number of days (90 when the property is left out), in order,
    never more cells than the calendar has days; the number of columns is the
    least number of seven-row columns that holds the cells; with the default,
    at most 90 cells in at most 13 columns; the total shown is the
    aggregator's, and the by-account block is present exactly when there is
    more than one account. *)
Theorem component_graph_dimensions
    (env : ProcessEnv) (transport : Request -> Completion Response)
    (schedule : list nat)
    (primary : Account) (others : list Account) (days : option Z)
    (calendar : ContributionCalendar) :
  outcome (fetchGitHubContributions env transport (username primary) (token primary))
  = Normal (Some calendar) ->
  exists res rows columns cells,
    outcome (aggregateContributions env transport schedule (primary :: others)) = Normal res
    /\ outcome (GitHubContributions env transport schedule (primary :: others) days)
       = Normal (ContributionGraph (Aggregate.totalContributions res)
                   rows columns cells)
    /\ cells = map day_cell
                 (getRecentContributions calendar
                    (Some (default days_display_default days)))
    /\ length cells <= totalDays calendar
    /\ length cells <= 7 * columns < length cells + 7
    /\ (days = None -> length cells <= 90 /\ columns <= 13)
    /\ (rows = None <-> others = [])
    /\ (others <> [] -> rows = Some (JsObject.entries (Aggregate.byAccount res))).
Proof.
  intros Hprimary.
  destruct (component_cons env transport schedule primary others days) as (res & Hres & Heq).
  rewrite Hprimary in Heq. cbv zeta in Heq.
  set (recent := getRecentContributions calendar
                   (Some (default days_display_default days))) in *.
  eexists res, _, _, _. split; [exact Hres |].
  split; [rewrite Heq; reflexivity |].
  split; [reflexivity |].
  rewrite length_map.
  pose proof (window_suffix_length calendar
                (Some (default days_display_default days))) as Hlen.
  fold recent in Hlen.
  split; [exact Hlen |]. split; [apply weeks_of_bounds |].
  split; [| split].
  - intros ->. simpl default in *.
    destruct (getRecentContributions_positive calendar days_display_default
                ltac:(unfold days_display_default; lia)) as (Hmin & _).
    fold recent in Hmin.
    pose proof (weeks_of_bounds (length recent)) as Hw.
    unfold days_display_default in Hmin. lia.
  - cbn [length]. destruct others as [| b others]; simpl.
    + split; reflexivity.
    + split; intros H; discriminate.
  - intros Hne. cbn [length]. destruct others as [| b others]; [done |].
    reflexivity.
Qed.

(** X18 at the accounts octocat and hubot, a calendar of 91 days for the
    first, and 8 days asked for. *)
Lemma component_graph_dimensions_witness :
  exists res rows columns cells,
    outcome (aggregateContributions no_env transport_year [1; 0] two_accounts)
    = Normal res
    /\ outcome (GitHubContributions no_env transport_year [1; 0] two_accounts
                  (Some 8%Z))
       = Normal (ContributionGraph (Aggregate.totalContributions res)
                   rows columns cells)
    /\ Aggregate.totalContributions res = 91%Z
    /\ rows = Some [("octocat", 91%Z); ("hubot", 0%Z)]
    /\ length cells = 8
    /\ columns = 2
    /\ map cell_count cells = [83; 84; 85; 86; 87; 88; 89; 90]%Z.
Proof.
  destruct (component_graph_dimensions no_env transport_year [1; 0]
              {| username := "octocat"; token := Some "good" |}
              [ {| username := "hubot"; token := Some "bad" |} ] (Some 8%Z)
              sample_year eq_refl)
    as (res & rows & columns & cells & Hres & Hview & Hcells & _ & Hcols & _ & _
        & Hrows).
  exists res, rows, columns, cells.
  split; [exact Hres |]. split; [exact Hview |].
  assert (Hres' := Hres). vm_compute in Hres'. injection Hres' as <-.
  assert (Hlen : length cells = 8) by (rewrite Hcells; vm_compute; reflexivity).
  split; [reflexivity |].
  split; [rewrite Hrows by discriminate; vm_compute; reflexivity |].
  split; [exact Hlen |].
  split; [lia |].
  rewrite Hcells. vm_compute. reflexivity.
Defined.

(** ** The activity section of the home page *)

Lemma first_resolved_repeat (a b : option string) :
  first_resolved [a; a; b] = first_resolved [a; b].
Proof. destruct a as [s |]; simpl; [| reflexivity]. by destruct (String.eqb s ""). Qed.

(** X19: the page asks for j-romo with the personal token or else the
    generic one, for jromo-mdb with the work token or else the personal or
    else the generic one, and for j-romo once more; an account for which
    none of its tokens is set is not asked for. *)
Theorem page_requests (penv : PageEnv) (transport : Request -> Completion Response)
    (schedule : list nat) :
  let env := process_env penv in
  let personal := first_resolved [GITHUB_TOKEN_PERSONAL env; GITHUB_TOKEN env] in
  let work :=
    first_resolved [GITHUB_TOKEN_WORK penv; GITHUB_TOKEN_PERSONAL env;
                    GITHUB_TOKEN env] in
  requests (page_activity penv transport schedule)
  = request_with "j-romo" personal
    ++ request_with "jromo-mdb" work
    ++ request_with "j-romo" personal.
Proof.
  intros env personal work. unfold page_activity, page_accounts.
  destruct (component_cons env transport schedule
              {| username := "j-romo"; token := GITHUB_TOKEN_PERSONAL env |}
              [ {| username := "jromo-mdb"; token := GITHUB_TOKEN_WORK penv |} ]
              (Some 365%Z)) as (res & _ & Heq).
  fold env. rewrite Heq.
  change (requests (?a ++ ?b, ?c)) with
    (omap (fun ev => match ev with NetworkRequest r => Some r | _ => None end)
          (a ++ b)).
  rewrite omap_app.
  pose proof (aggregate_requests_eq env transport schedule
     [ {| username := "j-romo"; token := GITHUB_TOKEN_PERSONAL env |};
       {| username := "jromo-mdb"; token := GITHUB_TOKEN_WORK penv |} ]) as Hagg.
  pose proof (fetch_requests env transport "j-romo" (GITHUB_TOKEN_PERSONAL env)) as Hone.
  unfold requests in Hagg, Hone. cbn [username token] in *.
  rewrite Hagg, Hone.
  cbn [omap list_omap username token]. rewrite first_resolved_repeat.
  fold personal. fold work.
  destruct personal, work; reflexivity.
Qed.

(** X20: without a personal and without a generic token the page shows the
    unable-to-load notice, whatever the work token is and whatever the
    transport answers. *)
Theorem page_needs_personal_or_generic
    (penv : PageEnv) (transport : Request -> Completion Response)
    (schedule : list nat) :
  truthy (GITHUB_TOKEN_PERSONAL (process_env penv)) = false ->
  truthy (GITHUB_TOKEN (process_env penv)) = false ->
  outcome (page_activity penv transport schedule) = Normal UnableToLoad.
Proof.
  intros Hp Hg. unfold page_activity, page_accounts.
  destruct (component_cons (process_env penv) transport schedule
              {| username := "j-romo";
                 token := GITHUB_TOKEN_PERSONAL (process_env penv) |}
              [ {| username := "jromo-mdb"; token := GITHUB_TOKEN_WORK penv |} ]
              (Some 365%Z)) as (res & _ & Heq).
  rewrite Heq. unfold outcome at 1. cbn [snd username token].
  rewrite fetchGitHubContributions_unresolved; [reflexivity |].
  unfold githubToken, js_or. rewrite Hp. by rewrite Hp.
Qed.

(** X20 at an environment with the work token only. *)
Lemma page_needs_personal_or_generic_witness :
  outcome (page_activity penv_work_only transport_one_credential [1; 0])
  = Normal UnableToLoad.
Proof.
  exact (page_needs_personal_or_generic penv_work_only transport_one_credential
           [1; 0] eq_refl eq_refl).
Defined.
